(** * Chat history: History Store and Tool Gateway

    A shallow embedding of [chat_history.py] (class [ChatHistoryManager]) and
    of [mcp_server.py] (the handlers registered on the MCP server), with the
    properties of the specification stated over it.

    Conventions of the embedding.
    - Python text is a [string]; its elements stand for the characters that
      [len] counts and that slicing selects.  [upper] acts on ASCII letters.
    - A value taken from the host's argument map is a [pyval]: JSON null,
      booleans, integers and strings.
    - A call that may raise returns a [result]; an exception carries its
      class name and the text that [str(e)] yields.  Only exceptions derived
      from [Exception] are modelled, so [except Exception] catches all of them.
    - The program's state is the backing collection together with the log of
      the outbound calls made so far; every function threads it explicitly.
    - The embedding provider, the three completion providers, the clock and
      the availability of the backing store are the components of an [Env].
    - Scores are exact real numbers; the rounding done by the backing store's
      floating-point arithmetic is outside the model.
    - The backing store is an external service.  Its three requests that the
      program issues (append a document, scored search, terms aggregation)
      are modelled in [Module Es]; the creation of the index when the
      manager is constructed is left out, the collection being there from
      the start. *)

From Stdlib Require Import List String Ascii ZArith Reals Lia Lra Bool.
From Stdlib Require Import Permutation Sorted DecimalString PeanoNat.
Import ListNotations.

Set Implicit Arguments.

Open Scope string_scope.

(* ================================================================== *)
(** ** Python values, text and exceptions *)

Module Py.

Inductive pyval : Type :=
| PNone
| PBool (b : bool)
| PInt (n : Z)
| PStr (s : string).

(** The line feed and the apostrophe, which have no literal of their own. *)
Definition nl : string := String (ascii_of_nat 10) EmptyString.
Definition apos : string := String (ascii_of_nat 39) EmptyString.

(** [bool(v)]: what [if not v] tests. *)
Definition truthy (v : pyval) : bool :=
  match v with
  | PNone => false
  | PBool b => b
  | PInt n => negb (Z.eqb n 0)
  | PStr s => negb (String.eqb s EmptyString)
  end.

Definition str_of_nat (n : nat) : string :=
  NilEmpty.string_of_uint (Nat.to_uint n).

Definition str_of_Z (n : Z) : string :=
  NilEmpty.string_of_int (Z.to_int n).

(** [str(v)], which is also what an f-string field [{v}] renders. *)
Definition str (v : pyval) : string :=
  match v with
  | PNone => "None"
  | PBool true => "True"
  | PBool false => "False"
  | PInt n => str_of_Z n
  | PStr s => s
  end.

(** [type(v).__name__]. *)
Definition type_name (v : pyval) : string :=
  match v with
  | PNone => "NoneType"
  | PBool _ => "bool"
  | PInt _ => "int"
  | PStr _ => "str"
  end.

(** [v == s] for a string literal [s]. *)
Definition eq_str (v : pyval) (s : string) : bool :=
  match v with
  | PStr t => String.eqb t s
  | _ => false
  end.

Definition upper_ascii (c : ascii) : ascii :=
  let n := nat_of_ascii c in
  if (97 <=? n)%nat && (n <=? 122)%nat then ascii_of_nat (n - 32) else c.

(** [s.upper()]. *)
Fixpoint upper (s : string) : string :=
  match s with
  | EmptyString => EmptyString
  | String c s' => String (upper_ascii c) (upper s')
  end.

(** [s[:n]]. *)
Definition slice_to (n : nat) (s : string) : string := substring 0 n s.

Record exn : Type := Exn { exn_class : string; exn_msg : string }.

Inductive result (A : Type) : Type :=
| Ok (a : A)
| Raise (e : exn).
Arguments Ok {A} a.
Arguments Raise {A} e.

(** [d.get(key, default)] on a dict given as its list of items. *)
Fixpoint dict_get {V : Type} (d : list (string * V)) (key : string) (default : V) : V :=
  match d with
  | [] => default
  | (k, v) :: d' => if String.eqb k key then v else dict_get d' key default
  end.

(** [d[key]]. *)
Fixpoint dict_item {V : Type} (d : list (string * V)) (key : string) : result V :=
  match d with
  | [] => Raise (Exn "KeyError" (apos ++ key ++ apos))
  | (k, v) :: d' => if String.eqb k key then Ok v else dict_item d' key
  end.

(** The exception of [left + right] when [left] is not a [str] and [right]
    is one. *)
Definition add_type_error (left : pyval) : exn :=
  Exn "TypeError"
    ("unsupported operand type(s) for +: " ++ apos ++ type_name left
       ++ apos ++ " and " ++ apos ++ "str" ++ apos).

End Py.
Export Py.

(* ================================================================== *)
(** ** Vectors and the similarity function *)

Module Vec.

Local Open Scope R_scope.

Fixpoint dot (a b : list R) : R :=
  match a, b with
  | x :: a', y :: b' => x * y + dot a' b'
  | _, _ => 0
  end.

Definition norm (a : list R) : R := sqrt (dot a a).

Definition cosine_similarity (a b : list R) : R :=
  dot a b / (norm a * norm b).

End Vec.
Export Vec.

(* ================================================================== *)
(** ** Data model *)

(** The document that [index_chat] builds; the mapping created by
    [_ensure_index_exists] declares the same five fields. *)
Record ChatRecord : Type := {
  timestamp : string;
  provider : string;
  query : string;
  response : string;
  embedding : list R
}.

(** A field value of a document as the backing store returns it. *)
Inductive value : Type :=
| VStr (s : string)
| VVec (v : list R).

(** A JSON object: the items of the dict, in order. *)
Definition source : Type := list (string * value).

(** The dict literal of [index_chat], key by key. *)
Definition doc_items (d : ChatRecord) : source :=
  [ ("timestamp", VStr (timestamp d));
    ("provider", VStr (provider d));
    ("query", VStr (query d));
    ("response", VStr (response d));
    ("embedding", VVec (embedding d)) ].

(** The scoring script sent to the backing store.  The source holds it as
    the text [cosineSimilarity(params.query_vector, 'embedding') + 1.0]; the
    syntax tree of that expression stands for it. *)
Inductive script : Type :=
| CosineSimilarity (param field : string)
| Const (c : R)
| Plus (a b : script).

(** The request body of [search_similar_chats]. *)
Record search_body : Type := {
  script_source : script;
  script_params : list (string * list R);
  body_size : pyval;
  body_source : list string
}.

(** One element of [response["hits"]["hits"]]. *)
Record hit : Type := { hit_score : R; hit_source : source }.

(** The answer to the aggregation request of [get_chat_stats]. *)
Record stats_response : Type := {
  total_value : nat;
  buckets : list (string * nat)
}.

(** One block of the result handed back to the host. *)
Record TextContent : Type := { type : string; text : string }.

(* ================================================================== *)
(** ** Environment, state and the monad of the handlers *)

(** An outbound call, as it is logged. *)
Inductive call : Type :=
| EmbeddingsCreate (input : pyval)
| Completion (vendor : string) (question : pyval)
| EsIndex (doc : ChatRecord)
| EsSearch (body : search_body)
| EsAggregate.

Record Env : Type := {
  (** [openai_client.embeddings.create(...).data[0].embedding] *)
  embeddings_create : pyval -> result (list R);
  (** [openai_client.chat.completions.create(...).choices[0].message.content] *)
  openai_chat : pyval -> result string;
  (** [anthropic_client.messages.create(...).content[0].text] *)
  anthropic_messages : pyval -> result string;
  (** [genai.GenerativeModel('gemini-pro').generate_content(...).text] *)
  google_generate : pyval -> result string;
  (** [datetime.now().isoformat()] *)
  now_isoformat : string;
  (** the failure, if any, of a write to the backing store *)
  es_index_error : ChatRecord -> option exn;
  (** the failure, if any, of a read from the backing store *)
  es_search_error : option exn;
  (** [json.dumps(..., indent=2)] *)
  json_dumps : list source -> string;
  (** how a vector prints inside an f-string *)
  repr_vector : list R -> string
}.

Record State : Type := {
  collection : list ChatRecord;
  calls : list call
}.

Definition M (A : Type) : Type := State -> State * result A.

Definition ret {A} (a : A) : M A := fun st => (st, Ok a).

Definition raise {A} (e : exn) : M A := fun st => (st, Raise e).

Definition bind {A B} (m : M A) (k : A -> M B) : M B :=
  fun st =>
    match m st with
    | (st', Ok a) => k a st'
    | (st', Raise e) => (st', Raise e)
    end.

Definition lift {A} (r : result A) : M A := fun st => (st, r).

(** [try: body  except Exception as e: handler(e)] *)
Definition try_except {A} (body : M A) (handler : exn -> M A) : M A :=
  fun st =>
    match body st with
    | (st', Ok a) => (st', Ok a)
    | (st', Raise e) => handler e st'
    end.

Definition record_call (c : call) : M unit :=
  fun st => ({| collection := collection st; calls := calls st ++ [c] |}, Ok tt).

Notation "x <- m ;; k" := (bind m (fun x => k))
  (at level 61, m at next level, right associativity).
Notation "m ;;; k" := (bind m (fun _ => k))
  (at level 61, right associativity).

(* ================================================================== *)
(** ** The backing store *)

Module Es.

Local Open Scope R_scope.

Definition vector_field (d : ChatRecord) (field : string) : option (list R) :=
  match dict_item (doc_items d) field with
  | Ok (VVec v) => Some v
  | _ => None
  end.

(** Modelled from the spec: the value of a scoring script on one stored
    record.  The store itself is an external service; [cosineSimilarity]
    is the cosine of the angle between the query vector and the record's
    vector, which exists only for two vectors of one length and of non-zero
    magnitude. *)
Fixpoint eval_script (s : script) (params : list (string * list R))
         (d : ChatRecord) : option R :=
  match s with
  | CosineSimilarity param field =>
      match dict_item params param, vector_field d field with
      | Ok qv, Some v =>
          if Nat.eqb (List.length qv) (List.length v) then
            if Req_EM_T (norm qv * norm v) 0 then None
            else Some (cosine_similarity qv v)
          else None
      | _, _ => None
      end
  | Const c => Some c
  | Plus a b =>
      match eval_script a params d, eval_script b params d with
      | Some x, Some y => Some (x + y)
      | _, _ => None
      end
  end.

(** Modelled from the spec: the score of one record, which the store
    requires to be non-negative. *)
Definition script_score (body : search_body) (d : ChatRecord) : option R :=
  match eval_script (script_source body) (script_params body) d with
  | Some x => if Rlt_dec x 0 then None else Some x
  | None => None
  end.

Fixpoint score_all (body : search_body) (docs : list ChatRecord)
  : option (list (R * ChatRecord)) :=
  match docs with
  | [] => Some []
  | d :: docs' =>
      match script_score body d, score_all body docs' with
      | Some x, Some rest => Some ((x, d) :: rest)
      | _, _ => None
      end
  end.

Fixpoint insert_desc (x : R * ChatRecord) (l : list (R * ChatRecord))
  : list (R * ChatRecord) :=
  match l with
  | [] => [x]
  | y :: l' =>
      if Rle_dec (fst x) (fst y) then y :: insert_desc x l' else x :: y :: l'
  end.

Fixpoint sort_desc (l : list (R * ChatRecord)) : list (R * ChatRecord) :=
  match l with
  | [] => []
  | x :: l' => insert_desc x (sort_desc l')
  end.

(** The [_source] of a hit: the stored document restricted to the
    requested fields. *)
Definition source_filter (fields : list string) (d : ChatRecord) : source :=
  filter (fun kv => existsb (String.eqb (fst kv)) fields) (doc_items d).

Definition make_hit (fields : list string) (sd : R * ChatRecord) : hit :=
  {| hit_score := fst sd; hit_source := source_filter fields (snd sd) |}.

Definition bad_request (reason : string) : exn := Exn "BadRequestError" reason.

(** Modelled from the spec: [es.index(index=..., document=doc)] appends one
    record to the collection, or fails without writing. *)
Definition index (env : Env) (doc : ChatRecord) : M unit :=
  record_call (EsIndex doc) ;;;
  fun st =>
    match es_index_error env doc with
    | Some e => (st, Raise e)
    | None =>
        ({| collection := collection st ++ [doc]; calls := calls st |}, Ok tt)
    end.

(** Modelled from the spec: [es.search(index=..., body=search_body)] with a
    [script_score] query over [match_all] scores every stored record,
    orders them by descending score and returns the first [size] of them,
    each restricted to the [_source] fields. *)
Definition search (env : Env) (body : search_body) : M (list hit) :=
  record_call (EsSearch body) ;;;
  fun st =>
    match es_search_error env with
    | Some e => (st, Raise e)
    | None =>
        match body_size body with
        | PInt n =>
            if (n <? 0)%Z then (st, Raise (bad_request "size must be non-negative"))
            else
              match score_all body (collection st) with
              | None => (st, Raise (bad_request "script_score failed"))
              | Some scored =>
                  (st, Ok (map (make_hit (body_source body))
                             (firstn (Z.to_nat n) (sort_desc scored))))
              end
        | _ => (st, Raise (bad_request "size must be an integer"))
        end
    end.

Fixpoint bump (key : string) (bs : list (string * nat)) : list (string * nat) :=
  match bs with
  | [] => [(key, 1%nat)]
  | (k, n) :: bs' =>
      if String.eqb k key then (k, S n) :: bs' else (k, n) :: bump key bs'
  end.

(** Modelled from the spec: the [terms] aggregation on [provider] with
    [size] 0 yields the total record count and one bucket per provider.
    The order of the buckets is the store's own. *)
Definition aggregate (env : Env) : M stats_response :=
  record_call EsAggregate ;;;
  fun st =>
    match es_search_error env with
    | Some e => (st, Raise e)
    | None =>
        (st, Ok {| total_value := List.length (collection st);
                   buckets := fold_left (fun bs d => bump (provider d) bs)
                                (collection st) [] |})
    end.

End Es.

(* ================================================================== *)
(** ** [chat_history.py]: class [ChatHistoryManager] *)

Definition _get_embedding (env : Env) (text : pyval) : M (list R) :=
  record_call (EmbeddingsCreate text) ;;;
  lift (embeddings_create env text).

(** [query] reaches this method unchecked from the host's argument map;
    [response] is the text a provider returned. *)
Definition index_chat (env : Env) (query : pyval) (response : string)
           (provider : string) : M unit :=
  match query with
  | PStr q =>
      embedding <- _get_embedding env (PStr ((q ++ nl) ++ response)) ;;
      let doc := {| timestamp := now_isoformat env;
                    provider := provider;
                    query := q;
                    response := response;
                    embedding := embedding |} in
      Es.index env doc
  | _ => raise (add_type_error query)
  end.

Definition search_similar_chats (env : Env) (query : pyval) (size : pyval)
  : M (list source) :=
  query_embedding <- _get_embedding env query ;;
  let search_body :=
    {| script_source := Plus (CosineSimilarity "query_vector" "embedding") (Const 1%R);
       script_params := [("query_vector", query_embedding)];
       body_size := size;
       body_source := ["timestamp"; "provider"; "query"; "response"] |} in
  response <- Es.search env search_body ;;
  ret (map hit_source response).

Definition ask_openai (env : Env) (question : pyval) : M string :=
  record_call (Completion "openai" question) ;;;
  response <- lift (openai_chat env question) ;;
  index_chat env question response "openai" ;;;
  ret response.

Definition ask_anthropic (env : Env) (question : pyval) : M string :=
  record_call (Completion "anthropic" question) ;;;
  response <- lift (anthropic_messages env question) ;;
  index_chat env question response "anthropic" ;;;
  ret response.

Definition ask_google (env : Env) (question : pyval) : M string :=
  record_call (Completion "google" question) ;;;
  response_text <- lift (google_generate env question) ;;
  index_chat env question response_text "google" ;;;
  ret response_text.

(* ================================================================== *)
(** ** [mcp_server.py]: the handlers of the Tool Gateway *)

Definition and_then {A B} (r : result A) (k : A -> result B) : result B :=
  match r with
  | Ok a => k a
  | Raise e => Raise e
  end.

Notation "x <~ r ;; k" := (and_then r (fun x => k))
  (at level 61, r at next level, right associativity).

Definition text_content (s : string) : list TextContent :=
  [ {| type := "text"; text := s |} ].

Definition no_attribute_upper (type_of : string) : exn :=
  Exn "AttributeError"
    (apos ++ type_of ++ apos ++ " object has no attribute " ++ apos ++ "upper" ++ apos).

(** [v.upper()] on a field of a hit. *)
Definition value_upper (v : value) : result string :=
  match v with
  | VStr s => Ok (upper s)
  | VVec _ => Raise (no_attribute_upper "list")
  end.

(** [v.upper()] on an argument of the host. *)
Definition pyval_upper (v : pyval) : result string :=
  match v with
  | PStr s => Ok (upper s)
  | _ => Raise (no_attribute_upper (type_name v))
  end.

(** An f-string field [{v}]. *)
Definition value_format (env : Env) (v : value) : string :=
  match v with
  | VStr s => s
  | VVec l => repr_vector env l
  end.

(** [v[:n]] and [len(v)]. *)
Definition value_slice (n : nat) (v : value) : value :=
  match v with
  | VStr s => VStr (slice_to n s)
  | VVec l => VVec (firstn n l)
  end.

Definition value_len (v : value) : nat :=
  match v with
  | VStr s => String.length s
  | VVec l => List.length l
  end.

(** The resources and tools announced to the host: URI and name of the one
    resource, names of the three tools (descriptions and input schemas are
    left out). *)
Definition handle_list_resources : list (string * string) :=
  [ ("chat://history", "Chat History") ].

Definition handle_list_tools : list string :=
  [ "search_chat_history"; "ask_llm"; "get_chat_stats" ].

Definition handle_read_resource (env : Env) (uri : string) : M string :=
  if String.eqb uri "chat://history" then
    recent_chats <- search_similar_chats env (PStr EmptyString) (PInt 10) ;;
    ret (json_dumps env recent_chats)
  else raise (Exn "ValueError" ("Unknown resource: " ++ uri)).

(** The body of the loop over [enumerate(results, 1)]: the three [+=]. *)
Definition render_chat (env : Env) (i : nat) (chat : source)
           (response_text : string) : result string :=
  p <~ dict_item chat "provider" ;;
  p_upper <~ value_upper p ;;
  t <~ dict_item chat "timestamp" ;;
  let response_text :=
    response_text ++ str_of_nat i ++ ". **[" ++ p_upper ++ "]** "
      ++ value_format env t ++ nl in
  q <~ dict_item chat "query" ;;
  let response_text :=
    response_text ++ "   **Q:** " ++ value_format env q ++ nl in
  r <~ dict_item chat "response" ;;
  Ok (response_text ++ "   **A:** " ++ value_format env (value_slice 200 r)
        ++ (if (200 <? value_len r)%nat then "..." else EmptyString)
        ++ nl ++ nl).

Fixpoint render_loop (env : Env) (i : nat) (results : list source)
         (response_text : string) : result string :=
  match results with
  | [] => Ok response_text
  | chat :: rest =>
      response_text' <~ render_chat env i chat response_text ;;
      render_loop env (S i) rest response_text'
  end.

Definition stats_line (stats_text : string) (bucket : string * nat) : string :=
  stats_text ++ "- " ++ upper (fst bucket) ++ ": " ++ str_of_nat (snd bucket) ++ nl.

(** [if arguments is None: arguments = {}] *)
Definition or_empty (arguments : option (list (string * pyval)))
  : list (string * pyval) :=
  match arguments with
  | None => []
  | Some a => a
  end.

Definition handle_call_tool (env : Env) (name : string)
           (arguments : option (list (string * pyval))) : M (list TextContent) :=
  let arguments := or_empty arguments in
  if String.eqb name "search_chat_history" then
    let query := dict_get arguments "query" (PStr EmptyString) in
    let limit := dict_get arguments "limit" (PInt 5) in
    results <- search_similar_chats env query limit ;;
    match results with
    | [] => ret (text_content "No similar conversations found.")
    | _ :: _ =>
        let response_text :=
          "Found " ++ str_of_nat (List.length results)
            ++ " similar conversations:" ++ nl ++ nl in
        response_text <- lift (render_loop env 1 results response_text) ;;
        ret (text_content response_text)
    end
  else if String.eqb name "ask_llm" then
    let question := dict_get arguments "question" (PStr EmptyString) in
    let provider := dict_get arguments "provider" (PStr "openai") in
    if negb (truthy question) then
      ret (text_content "Please provide a question to ask.")
    else
      try_except
        (let answered (response : string) : M (list TextContent) :=
           p_upper <- lift (pyval_upper provider) ;;
           ret (text_content
                  ("**Question:** " ++ str question ++ nl ++ nl
                     ++ "**Response from " ++ p_upper ++ ":**" ++ nl ++ response)) in
         if eq_str provider "openai" then
           response <- ask_openai env question ;; answered response
         else if eq_str provider "anthropic" then
           response <- ask_anthropic env question ;; answered response
         else if eq_str provider "google" then
           response <- ask_google env question ;; answered response
         else
           ret (text_content ("Unknown provider: " ++ str provider)))
        (fun e =>
           ret (text_content
                  ("Error asking " ++ str provider ++ ": " ++ exn_msg e)))
  else if String.eqb name "get_chat_stats" then
    try_except
      (response <- Es.aggregate env ;;
       let total_chats := total_value response in
       let provider_stats := buckets response in
       let stats_text := "**Chat History Statistics:**" ++ nl ++ nl in
       let stats_text :=
         stats_text ++ "Total conversations: " ++ str_of_nat total_chats
           ++ nl ++ nl in
       let stats_text := stats_text ++ "**By Provider:**" ++ nl in
       let stats_text := fold_left stats_line provider_stats stats_text in
       ret (text_content stats_text))
      (fun e => ret (text_content ("Error getting stats: " ++ exn_msg e)))
  else raise (Exn "ValueError" ("Unknown tool: " ++ name)).

(* ================================================================== *)
(** ** Vocabulary of the properties *)

(** The enumerated providers of the [ask_llm] input schema. *)
Definition providers : list string := [ "openai"; "anthropic"; "google" ].

(** The completion endpoint behind each provider name. *)
Definition completion (env : Env) (p : string) : pyval -> result string :=
  if String.eqb p "openai" then openai_chat env
  else if String.eqb p "anthropic" then anthropic_messages env
  else google_generate env.

(** The argument map of an [ask_llm] invocation. *)
Definition ask_args (question p : string) : option (list (string * pyval)) :=
  Some [ ("question", PStr question); ("provider", PStr p) ].

(** [needle] occurs somewhere in [hay]. *)
Definition occurs (needle hay : string) : bool :=
  match String.index 0 needle hay with
  | Some _ => true
  | None => false
  end.

(** The record that [index_chat] writes. *)
Definition new_record (env : Env) (q r p : string) (v : list R) : ChatRecord :=
  {| timestamp := now_isoformat env; provider := p; query := q;
     response := r; embedding := v |}.

(** The state once one more call is logged. *)
Definition logged (c : call) (st : State) : State :=
  {| collection := collection st; calls := calls st ++ [c] |}.

Definition empty_state : State := {| collection := []; calls := [] |}.

(** An environment in which every service answers. *)
Definition env_up : Env :=
  {| embeddings_create := fun _ => Ok [1%R; 0%R];
     openai_chat := fun _ => Ok "4";
     anthropic_messages := fun _ => Ok "four";
     google_generate := fun _ => Ok "2+2=4";
     now_isoformat := "2025-01-01T00:00:00";
     es_index_error := fun _ => None;
     es_search_error := None;
     json_dumps := fun _ => "[]";
     repr_vector := fun _ => "[...]" |}.

(** The same, with the backing store refusing writes. *)
Definition env_store_down : Env :=
  {| embeddings_create := embeddings_create env_up;
     openai_chat := openai_chat env_up;
     anthropic_messages := anthropic_messages env_up;
     google_generate := google_generate env_up;
     now_isoformat := now_isoformat env_up;
     es_index_error := fun _ => Some (Exn "ConnectionError" "store unreachable");
     es_search_error := Some (Exn "ConnectionError" "store unreachable");
     json_dumps := json_dumps env_up;
     repr_vector := repr_vector env_up |}.

(** The same as [env_up], with the embedding provider unreachable. *)
Definition env_embedding_down : Env :=
  {| embeddings_create := fun _ => Raise (Exn "APIConnectionError" "Connection error.");
     openai_chat := openai_chat env_up;
     anthropic_messages := anthropic_messages env_up;
     google_generate := google_generate env_up;
     now_isoformat := now_isoformat env_up;
     es_index_error := es_index_error env_up;
     es_search_error := es_search_error env_up;
     json_dumps := json_dumps env_up;
     repr_vector := repr_vector env_up |}.

(** The request that [search_similar_chats] sends for a query vector. *)
Definition search_request (query_embedding : list R) (size : pyval) : search_body :=
  {| script_source := Plus (CosineSimilarity "query_vector" "embedding") (Const 1%R);
     script_params := [("query_vector", query_embedding)];
     body_size := size;
     body_source := ["timestamp"; "provider"; "query"; "response"] |}.

(** The score the specification gives a record for a query vector. *)
Definition score_of (qv : list R) (d : ChatRecord) : R :=
  (cosine_similarity qv (embedding d) + 1)%R.

(** The cosine of the angle between the query vector and the record's vector
    exists: both have one length and neither has magnitude zero. *)
Definition scorable (qv : list R) (d : ChatRecord) : Prop :=
  List.length qv = List.length (embedding d) /\
  (norm qv * norm (embedding d))%R <> 0%R.

(** The four metadata fields of a record. *)
Definition metadata (d : ChatRecord) : source :=
  [ ("timestamp", VStr (timestamp d));
    ("provider", VStr (provider d));
    ("query", VStr (query d));
    ("response", VStr (response d)) ].

Definition keys (src : source) : list string := map fst src.

(** [d1] is listed before [d2] only if it scores at least as high. *)
Definition scores_desc (qv : list R) (d1 d2 : ChatRecord) : Prop :=
  (score_of qv d2 <= score_of qv d1)%R.

(** The provider of a record is one of the enumerated ones. *)
Definition enumerated (d : ChatRecord) : Prop := In (provider d) providers.

(** A computation leaves the collection as it was but for records it
    appends, all of which satisfy [P]. *)
Definition writes {A} (P : ChatRecord -> Prop) (m : M A) : Prop :=
  forall st, exists written,
    collection (fst (m st)) = (collection st ++ written)%list /\
    Forall P written.

(** The entry points of the system: the handlers the host invokes, and the
    methods of [ChatHistoryManager] that a caller of the class uses
    ([index_chat] is the write step inside the three [ask_] methods). *)
Inductive request : Type :=
| CallTool (name : string) (arguments : option (list (string * pyval)))
| ReadResource (uri : string)
| AskOpenAI (question : pyval)
| AskAnthropic (question : pyval)
| AskGoogle (question : pyval)
| SearchSimilarChats (query size : pyval).

(** The state after a request is served, whether it returned or raised. *)
Definition serve (env : Env) (r : request) (st : State) : State :=
  match r with
  | CallTool name arguments => fst (handle_call_tool env name arguments st)
  | ReadResource uri => fst (handle_read_resource env uri st)
  | AskOpenAI question => fst (ask_openai env question st)
  | AskAnthropic question => fst (ask_anthropic env question st)
  | AskGoogle question => fst (ask_google env question st)
  | SearchSimilarChats query size => fst (search_similar_chats env query size st)
  end.

(** The states the system passes through from an empty collection, the
    environment being free to change from one request to the next. *)
Inductive reachable : State -> Prop :=
| reachable_empty : reachable empty_state
| reachable_serve env r st : reachable st -> reachable (serve env r st).

(** [n] copies of the character [c]. *)
Fixpoint replicate (n : nat) (c : ascii) : string :=
  match n with
  | O => EmptyString
  | S n' => String c (replicate n' c)
  end.

Definition sample_record : ChatRecord :=
  new_record env_up "How do I configure my ingest pipeline?"
    "Define processors." "openai" [1%R; 0%R].

Definition long_record : ChatRecord :=
  new_record env_up "Tell me more." (replicate 201 "a") "google" [0%R; 1%R].

Definition sample_state : State :=
  {| collection := [ sample_record; long_record ]; calls := [] |}.

(** The order in which the store lists scored records. *)
Definition listed_before (x y : R * ChatRecord) : Prop := (fst y <= fst x)%R.

Definition long_state : State :=
  {| collection := [ long_record ]; calls := [] |}.

(* ================================================================== *)
(** ** [chat_history.py]: creation of the index *)

(** The declaration of one field in a mapping: its type and, for a vector,
    its number of dimensions. *)
Record field_mapping : Type := {
  field_type : string;
  field_dims : option nat
}.

(** The [properties] of a mapping, field by field. *)
Definition mapping : Type := list (string * field_mapping).

(** The indices of the backing store, each under its name with the mapping
    it was created with. *)
Definition indices : Type := list (string * mapping).

(** The mapping literal of [_ensure_index_exists]. *)
Definition chat_history_mapping : mapping :=
  [ ("timestamp", {| field_type := "date"; field_dims := None |});
    ("provider", {| field_type := "keyword"; field_dims := None |});
    ("query", {| field_type := "text"; field_dims := None |});
    ("response", {| field_type := "text"; field_dims := None |});
    ("embedding", {| field_type := "dense_vector"; field_dims := Some 1536 |}) ].

(** The mapping an index has, if the index is there. *)
Fixpoint index_mapping (ix : indices) (index : string) : option mapping :=
  match ix with
  | [] => None
  | (name, m) :: ix' =>
      if String.eqb name index then Some m else index_mapping ix' index
  end.

(** Modelled from the spec: [es.indices.exists(index=...)]; [fault] is the
    failure, if any, of the calls to the store. *)
Definition indices_exists (fault : option exn) (ix : indices) (index : string)
  : result bool :=
  match fault with
  | Some e => Raise e
  | None =>
      Ok (match index_mapping ix index with Some _ => true | None => false end)
  end.

(** Modelled from the spec: [es.indices.create(index=..., body=...)] adds an
    index under a name that is free, and fails for a name that is taken. *)
Definition indices_create (fault : option exn) (ix : indices) (index : string)
           (body : mapping) : indices * result unit :=
  match fault with
  | Some e => (ix, Raise e)
  | None =>
      match index_mapping ix index with
      | Some _ => (ix, Raise (Es.bad_request "resource_already_exists_exception"))
      | None => ((ix ++ [(index, body)])%list, Ok tt)
      end
  end.

Definition _ensure_index_exists (fault : option exn) (index_name : string)
           (ix : indices) : indices * result unit :=
  match indices_exists fault ix index_name with
  | Raise e => (ix, Raise e)
  | Ok false => indices_create fault ix index_name chat_history_mapping
  | Ok true => (ix, Ok tt)
  end.

(** [ChatHistoryManager.__init__]: the index name is fixed. *)
Definition __init__ (fault : option exn) (ix : indices) : indices * result unit :=
  let index_name := "chat_history" in
  _ensure_index_exists fault index_name ix.

(* ================================================================== *)
(** ** [setup.py] *)

Module Setup.

(** The files that exist, each path with its content.  Printed messages are
    kept as the bytes of their UTF-8 encoding. *)
Definition filesystem : Type := list (string * string).

(** [open(path, 'r').read()], for a path that is there. *)
Fixpoint read (fs : filesystem) (path : string) : option string :=
  match fs with
  | [] => None
  | (p, content) :: fs' =>
      if String.eqb p path then Some content else read fs' path
  end.

(** [os.path.exists(path)]. *)
Definition path_exists (fs : filesystem) (path : string) : bool :=
  match read fs path with
  | Some _ => true
  | None => false
  end.

(** [open(path, 'w').write(content)]: the file is created or replaced. *)
Definition write (fs : filesystem) (path content : string) : filesystem :=
  (path, content) :: filter (fun kv => negb (String.eqb (fst kv) path)) fs.

(** How [subprocess.check_call] ends: with status 0, with the
    [CalledProcessError] of a non-zero status, or with another exception. *)
Inductive pip_run : Type :=
| Exit0
| CalledProcessError (msg : string)
| OtherError (e : exn).

(** What the script meets outside itself: how the [pip] process ends and
    what it does to the files; the failure, if any, of opening and reading
    the example file; the failure, if any, of opening and writing the
    environment file, with what is left of that file ([None] when it was not
    created, [Some] of the content that got written).  [print] and
    [os.path.exists] are taken not to raise. *)
Record io : Type := {
  pip : pip_run;
  pip_files : filesystem -> filesystem;
  read_error : option exn;
  write_error : option (exn * option string)
}.

(** How a run of the script ends. *)
Inductive outcome : Type :=
| Finished
| SysExit (code : Z)
| Uncaught (e : exn).


(** The files afterwards, the lines printed, and the value returned or the
    exception raised. *)
Definition setup_env_file (w : io) (fs : filesystem)
  : filesystem * list string * result bool :=
  let env_file := ".env" in
  let env_example := ".env.example" in
  if path_exists fs env_file then
    (fs, [ "✅ .env file already exists" ], Ok true)
  else
    match read fs env_example with
    | Some content =>
        let printed := [ "📝 Creating .env file from .env.example" ] in
        match read_error w with
        | Some e => (fs, printed, Raise e)
        | None =>
            match write_error w with
            | Some (e, None) => (fs, printed, Raise e)
            | Some (e, Some partial) => (write fs env_file partial, printed, Raise e)
            | None =>
                (write fs env_file content,
                 (printed
                    ++ [ "⚠️  Please edit .env file with your actual API keys:";
                         "   - OPENAI_API_KEY";
                         "   - ANTHROPIC_API_KEY";
                         "   - GOOGLE_API_KEY";
                         "   - ELASTICSEARCH_URL";
                         "   - ELASTICSEARCH_API_KEY" ])%list,
                 Ok true)
            end
        end
    | None => (fs, [ "❌ .env.example file not found" ], Ok false)
    end.


End Setup.

(* ================================================================== *)
(** ** [chat_history.py]: the script run as a program *)

(** The body of the loop over [enumerate(similar, 1)]: the lines printed so
    far, extended by the three [print] calls, and the exception if a field
    is missing. *)
Definition print_chat (env : Env) (i : nat) (chat : source) (printed : list string)
  : list string * result unit :=
  match dict_item chat "provider" with
  | Raise e => (printed, Raise e)
  | Ok p =>
      match dict_item chat "query" with
      | Raise e => (printed, Raise e)
      | Ok q =>
          let printed :=
            (printed
               ++ [ (str_of_nat i ++ ". [" ++ value_format env p ++ "] "
                       ++ value_format env (value_slice 50 q) ++ "...")%string ])%list in
          match dict_item chat "response" with
          | Raise e => (printed, Raise e)
          | Ok r =>
              ((printed
                  ++ [ ("   " ++ value_format env (value_slice 100 r) ++ "...")%string;
                       EmptyString ])%list,
               Ok tt)
          end
      end
  end.

Fixpoint print_similar (env : Env) (i : nat) (similar : list source)
         (printed : list string) : list string * result unit :=
  match similar with
  | [] => (printed, Ok tt)
  | chat :: rest =>
      match print_chat env i chat printed with
      | (printed', Ok _) => print_similar env (S i) rest printed'
      | (printed', Raise e) => (printed', Raise e)
      end
  end.

(** The block under [if __name__ == "__main__"], the manager being
    constructed: the state afterwards, the lines printed, and the exception
    that ended the run, if any. *)
Definition chat_history_main (env : Env) (st : State)
  : State * list string * result unit :=
  let q := "How do I configure my ingest pipeline?" in
  let printed := [ "Question: " ++ q; nl ++ "--- OpenAI Response ---" ] in
  match ask_openai env (PStr q) st with
  | (st1, Raise e) => (st1, printed, Raise e)
  | (st1, Ok openai_answer) =>
      let printed :=
        (printed ++ [ openai_answer; (nl ++ "--- Similar Past Conversations ---")%string ])%list in
      match search_similar_chats env (PStr q) (PInt 3) st1 with
      | (st2, Raise e) => (st2, printed, Raise e)
      | (st2, Ok similar) =>
          match print_similar env 1 similar printed with
          | (printed', outcome) => (st2, printed', outcome)
          end
      end
  end.

(* ================================================================== *)
(** ** Vocabulary of the further properties *)

(** The records that a scored search with limit [n] selects from [docs]. *)
Definition top_records (qv : list R) (n : Z) (docs : list ChatRecord)
  : list ChatRecord :=
  map snd (firstn (Z.to_nat n)
             (Es.sort_desc (map (fun d => (score_of qv d, d)) docs))).

(** The three lines of one record in the listing of [search_chat_history]. *)
Definition listing_entry (i : nat) (d : ChatRecord) : string :=
  str_of_nat i ++ ". **[" ++ upper (provider d) ++ "]** " ++ timestamp d ++ nl
    ++ "   **Q:** " ++ query d ++ nl
    ++ "   **A:** " ++ slice_to 200 (response d)
    ++ (if (200 <? String.length (response d))%nat then "..." else EmptyString)
    ++ nl ++ nl.

(** The entries of the records [ds], numbered from [i]. *)
Fixpoint listing (i : nat) (ds : list ChatRecord) : string :=
  match ds with
  | [] => EmptyString
  | d :: ds' => listing_entry i d ++ listing (S i) ds'
  end.

(** The lines the script prints for the records [ds], numbered from [i]:
    each query cut to 50 characters and each response to 100, always
    followed by [...]. *)
Fixpoint preview_lines (i : nat) (ds : list ChatRecord) : list string :=
  match ds with
  | [] => []
  | d :: ds' =>
      (str_of_nat i ++ ". [" ++ provider d ++ "] "
         ++ slice_to 50 (query d) ++ "...")
        :: ("   " ++ slice_to 100 (response d) ++ "...")
        :: EmptyString
        :: preview_lines (S i) ds'
  end.

(** The question that the script asks. *)
Definition demo_question : string := "How do I configure my ingest pipeline?".

(** How the listing shows a response: cut to 200 characters, with the
    marker after it when something was cut. *)
Definition shown_response (r : string) : string :=
  slice_to 200 r
    ++ (if (200 <? String.length r)%nat then "..." else EmptyString).

(** The three lines of one record, its response shown as [shown] gives. *)
Definition entry_showing (shown : string -> string) (i : nat) (d : ChatRecord)
  : string :=
  str_of_nat i ++ ". **[" ++ upper (provider d) ++ "]** " ++ timestamp d ++ nl
    ++ "   **Q:** " ++ query d ++ nl
    ++ "   **A:** " ++ shown (response d) ++ nl ++ nl.

Fixpoint listing_showing (shown : string -> string) (i : nat)
         (ds : list ChatRecord) : string :=
  match ds with
  | [] => EmptyString
  | d :: ds' => entry_showing shown i d ++ listing_showing shown (S i) ds'
  end.

(** One provider line of the statistics. *)
Definition provider_line (bucket : string * nat) : string :=
  "- " ++ upper (fst bucket) ++ ": " ++ str_of_nat (snd bucket) ++ nl.

Fixpoint provider_lines (bs : list (string * nat)) : string :=
  match bs with
  | [] => EmptyString
  | b :: bs' => provider_line b ++ provider_lines bs'
  end.

(** The buckets the store answers with for a collection. *)
Definition provider_buckets (docs : list ChatRecord) : list (string * nat) :=
  fold_left (fun bs d => Es.bump (provider d) bs) docs [].

(** The number of records of [docs] whose provider is [p]. *)
Definition count_provider (p : string) (docs : list ChatRecord) : nat :=
  List.length (filter (fun d => String.eqb (provider d) p) docs).

(** The count under the first bucket for [p], 0 when there is none. *)
Fixpoint bucket_of (bs : list (string * nat)) (p : string) : nat :=
  match bs with
  | [] => 0
  | (k, n) :: bs' => if String.eqb k p then n else bucket_of bs' p
  end.

(** The requests that are no [ask]: every tool but [ask_llm], the reading of
    a resource, and the search method. *)
Definition read_only (r : request) : Prop :=
  match r with
  | CallTool name _ => name <> "ask_llm"
  | ReadResource _ => True
  | SearchSimilarChats _ _ => True
  | AskOpenAI _ | AskAnthropic _ | AskGoogle _ => False
  end.

(** The text of [ask_llm] when the answer was obtained and stored. *)
Definition answer_text (q p answer : string) : string :=
  "**Question:** " ++ q ++ nl ++ nl
    ++ "**Response from " ++ upper p ++ ":**" ++ nl ++ answer.

(** The same as [env_up], with the three completion providers timing out. *)
Definition env_provider_down : Env :=
  {| embeddings_create := embeddings_create env_up;
     openai_chat := fun _ => Raise (Exn "APITimeoutError" "Request timed out.");
     anthropic_messages := fun _ => Raise (Exn "APITimeoutError" "Request timed out.");
     google_generate := fun _ => Raise (Exn "DeadlineExceeded" "504 Deadline Exceeded");
     now_isoformat := now_isoformat env_up;
     es_index_error := es_index_error env_up;
     es_search_error := es_search_error env_up;
     json_dumps := json_dumps env_up;
     repr_vector := repr_vector env_up |}.

(** A checkout in which the example environment file is there and [.env]
    is not. *)
Definition fresh_checkout : Setup.filesystem :=
  [ ("requirements.txt", "openai");
    (".env.example", "OPENAI_API_KEY=") ].

(** Everything outside the script works, and [pip] changes no file of the
    checkout. *)
Definition io_ok : Setup.io :=
  {| Setup.pip := Setup.Exit0;
     Setup.pip_files := fun fs => fs;
     Setup.read_error := None;
     Setup.write_error := None |}.

(** The same, with an example file that cannot be decoded. *)
Definition io_unreadable : Setup.io :=
  {| Setup.pip := Setup.Exit0;
     Setup.pip_files := fun fs => fs;
     Setup.read_error :=
       Some (Exn "UnicodeDecodeError" "invalid start byte");
     Setup.write_error := None |}.

(* ================================================================== *)
(** ** Dispatch on the tool name *)

Lemma handle_call_tool_ask_llm env arguments :
  handle_call_tool env "ask_llm" arguments =
  (let arguments := or_empty arguments in
   let question := dict_get arguments "question" (PStr EmptyString) in
   let provider := dict_get arguments "provider" (PStr "openai") in
   if negb (truthy question) then
     ret (text_content "Please provide a question to ask.")
   else
     try_except
       (let answered (response : string) : M (list TextContent) :=
          p_upper <- lift (pyval_upper provider) ;;
          ret (text_content
                 ("**Question:** " ++ str question ++ nl ++ nl
                    ++ "**Response from " ++ p_upper ++ ":**" ++ nl ++ response)) in
        if eq_str provider "openai" then
          response <- ask_openai env question ;; answered response
        else if eq_str provider "anthropic" then
          response <- ask_anthropic env question ;; answered response
        else if eq_str provider "google" then
          response <- ask_google env question ;; answered response
        else
          ret (text_content ("Unknown provider: " ++ str provider)))
       (fun e =>
          ret (text_content
                 ("Error asking " ++ str provider ++ ": " ++ exn_msg e)))).
Proof. reflexivity. Qed.

(** C10.  A tool name other than the three announced ones makes the dispatch
    raise [ValueError] instead of returning text; the state, that is the
    collection and the log of outbound calls, is left as it was, so neither a
    History Store call nor a write took place. *)
Theorem unknown_tool_is_hard_failure env name arguments st :
  ~ In name handle_list_tools ->
  handle_call_tool env name arguments st =
  (st, Raise (Exn "ValueError" ("Unknown tool: " ++ name))).
Proof.
  intros Hout. unfold handle_call_tool.
  destruct (String.eqb_spec name "search_chat_history") as [->|_];
    [exfalso; apply Hout; simpl; auto|].
  destruct (String.eqb_spec name "ask_llm") as [->|_];
    [exfalso; apply Hout; simpl; auto|].
  destruct (String.eqb_spec name "get_chat_stats") as [->|_];
    [exfalso; apply Hout; simpl; auto|].
  reflexivity.
Qed.

Lemma unknown_tool_is_hard_failure_witness :
  ~ In "delete_history" handle_list_tools /\
  handle_call_tool env_up "delete_history" None empty_state =
  (empty_state, Raise (Exn "ValueError" "Unknown tool: delete_history")).
Proof.
  assert (H : ~ In "delete_history" handle_list_tools).
  { simpl. intros [H|[H|[H|[]]]]; discriminate H. }
  split; [exact H|].
  exact (unknown_tool_is_hard_failure env_up None empty_state H).
Defined.

(* ================================================================== *)
(** ** [ask_llm]: guards in front of the provider call *)

Lemma truthy_nonempty q : q <> EmptyString -> truthy (PStr q) = true.
Proof.
  intros Hq. simpl. destruct (String.eqb_spec q EmptyString); [contradiction|reflexivity].
Qed.

Lemma eq_str_outside p s : p <> s -> eq_str (PStr p) s = false.
Proof. intros Hp. simpl. now apply String.eqb_neq. Qed.

(** C6.  With an empty question (given as the empty string, or left out so
    that the default applies) and any other arguments whatever, in particular
    any provider, [ask_llm] answers with the prompt for input; the state is
    unchanged, so no provider was called, nothing was written and the
    collection is as before. *)
Theorem ask_llm_empty_question env arguments st :
  dict_get (or_empty arguments) "question" (PStr EmptyString) = PStr EmptyString ->
  handle_call_tool env "ask_llm" arguments st =
  (st, Ok (text_content "Please provide a question to ask.")).
Proof.
  intros Hq. rewrite handle_call_tool_ask_llm. cbv zeta. rewrite Hq. reflexivity.
Qed.

Lemma ask_llm_empty_question_witness :
  dict_get (or_empty (ask_args EmptyString "anthropic")) "question" (PStr EmptyString)
    = PStr EmptyString /\
  handle_call_tool env_up "ask_llm" (ask_args EmptyString "anthropic") empty_state =
  (empty_state, Ok (text_content "Please provide a question to ask.")).
Proof.
  split; [reflexivity|].
  apply (ask_llm_empty_question env_up (ask_args EmptyString "anthropic") empty_state).
  reflexivity.
Defined.

(** C7.  With a non-empty question and a provider string that is none of
    [openai], [anthropic], [google], [ask_llm] returns the text
    [Unknown provider: <provider>] as an ordinary result; the state is
    unchanged, so no provider was called and nothing was written. *)
Theorem ask_llm_unknown_provider env arguments st q p :
  dict_get (or_empty arguments) "question" (PStr EmptyString) = PStr q ->
  q <> EmptyString ->
  dict_get (or_empty arguments) "provider" (PStr "openai") = PStr p ->
  ~ In p providers ->
  handle_call_tool env "ask_llm" arguments st =
  (st, Ok (text_content ("Unknown provider: " ++ p))).
Proof.
  intros Hq Hne Hp Hout. rewrite handle_call_tool_ask_llm. cbv zeta.
  rewrite Hq, Hp, (truthy_nonempty Hne). cbn [negb].
  assert (H1 : p <> "openai") by (intros ->; apply Hout; simpl; auto).
  assert (H2 : p <> "anthropic") by (intros ->; apply Hout; simpl; auto).
  assert (H3 : p <> "google") by (intros ->; apply Hout; simpl; auto).
  rewrite (eq_str_outside H1), (eq_str_outside H2), (eq_str_outside H3).
  reflexivity.
Qed.

Lemma ask_llm_unknown_provider_witness :
  handle_call_tool env_up "ask_llm" (ask_args "2+2?" "unknown") empty_state =
  (empty_state, Ok (text_content "Unknown provider: unknown")).
Proof.
  apply (@ask_llm_unknown_provider env_up (ask_args "2+2?" "unknown")
           empty_state "2+2?" "unknown").
  - reflexivity.
  - discriminate.
  - reflexivity.
  - simpl. intros [H|[H|[H|[]]]]; discriminate H.
Defined.

(* ================================================================== *)
(** ** [index_chat] *)

Lemma index_chat_str env q r p st :
  index_chat env (PStr q) r p st =
  match embeddings_create env (PStr ((q ++ nl) ++ r)) with
  | Ok v =>
      match es_index_error env (new_record env q r p v) with
      | Some e =>
          (logged (EsIndex (new_record env q r p v))
             (logged (EmbeddingsCreate (PStr ((q ++ nl) ++ r))) st), Raise e)
      | None =>
          ({| collection := collection st ++ [new_record env q r p v];
              calls := calls st ++ [ EmbeddingsCreate (PStr ((q ++ nl) ++ r));
                                     EsIndex (new_record env q r p v) ] |}, Ok tt)
      end
  | Raise e => (logged (EmbeddingsCreate (PStr ((q ++ nl) ++ r))) st, Raise e)
  end.
Proof.
  unfold index_chat, _get_embedding, Es.index, bind, record_call, lift, logged.
  cbn [collection calls].
  destruct (embeddings_create env (PStr ((q ++ nl) ++ r))) as [v|e]; [|reflexivity].
  fold (new_record env q r p v).
  destruct (es_index_error env (new_record env q r p v)); [reflexivity|].
  now rewrite <- app_assoc.
Qed.

(** C8.  [index_chat] asks for the embedding of the query, a line feed and
    the response joined together (the one embedding request it logs), puts
    the vector it receives into a record that carries the current timestamp
    and the given provider, query and response, and, the embedding provider
    and the store both answering, leaves the collection as the old one with
    exactly that record appended. *)
Theorem index_chat_appends_one_record env q r p v st :
  embeddings_create env (PStr ((q ++ nl) ++ r)) = Ok v ->
  es_index_error env (new_record env q r p v) = None ->
  index_chat env (PStr q) r p st =
  ({| collection := collection st ++ [new_record env q r p v];
      calls := calls st ++ [ EmbeddingsCreate (PStr ((q ++ nl) ++ r));
                             EsIndex (new_record env q r p v) ] |}, Ok tt).
Proof.
  intros Hemb Hes. rewrite index_chat_str, Hemb, Hes. reflexivity.
Qed.

Lemma index_chat_appends_one_record_witness :
  index_chat env_up (PStr "How do I configure my ingest pipeline?")
    "Define processors." "openai" empty_state =
  ({| collection :=
        [ new_record env_up "How do I configure my ingest pipeline?"
            "Define processors." "openai" [1%R; 0%R] ];
      calls :=
        [ EmbeddingsCreate
            (PStr (("How do I configure my ingest pipeline?" ++ nl)
                     ++ "Define processors."));
          EsIndex (new_record env_up "How do I configure my ingest pipeline?"
                     "Define processors." "openai" [1%R; 0%R]) ] |}, Ok tt).
Proof.
  apply (@index_chat_appends_one_record env_up
           "How do I configure my ingest pipeline?" "Define processors."
           "openai" [1%R; 0%R] empty_state); reflexivity.
Defined.

(** Whatever happens, [index_chat] writes at most the one record, and that
    record carries the provider it was given. *)
Lemma index_chat_writes env q r p st :
  exists written,
    collection (fst (index_chat env q r p st)) = (collection st ++ written)%list /\
    Forall (fun d => provider d = p) written.
Proof.
  destruct q as [| b | n | q];
    try (exists []; split; [simpl; now rewrite app_nil_r | constructor]).
  rewrite index_chat_str.
  destruct (embeddings_create env (PStr ((q ++ nl) ++ r))) as [v|e].
  - destruct (es_index_error env (new_record env q r p v)).
    + exists []. split; [simpl; now rewrite app_nil_r | constructor].
    + exists [new_record env q r p v]. split; [reflexivity|].
      constructor; [reflexivity | constructor].
  - exists []. split; [simpl; now rewrite app_nil_r | constructor].
Qed.

(* ================================================================== *)
(** ** [ask_llm]: completion followed by persistence *)

Ltac run_ask :=
  unfold ask_openai, ask_anthropic, ask_google;
  unfold bind, record_call, lift, ret, logged;
  repeat match goal with
    | |- context [match ?r with Ok _ => _ | Raise _ => _ end] =>
        is_var r; destruct r
    | |- context [match ?x ?q with Ok _ => _ | Raise _ => _ end] =>
        destruct (x q)
    | |- context [let (_, _) := ?m in _] => destruct m as [? [[]|?]]
    end;
  reflexivity.

Lemma ask_openai_run env q st :
  ask_openai env q st =
  match openai_chat env q with
  | Ok r =>
      match index_chat env q r "openai" (logged (Completion "openai" q) st) with
      | (st', Ok _) => (st', Ok r)
      | (st', Raise e) => (st', Raise e)
      end
  | Raise e => (logged (Completion "openai" q) st, Raise e)
  end.
Proof. run_ask. Qed.

Lemma ask_anthropic_run env q st :
  ask_anthropic env q st =
  match anthropic_messages env q with
  | Ok r =>
      match index_chat env q r "anthropic" (logged (Completion "anthropic" q) st) with
      | (st', Ok _) => (st', Ok r)
      | (st', Raise e) => (st', Raise e)
      end
  | Raise e => (logged (Completion "anthropic" q) st, Raise e)
  end.
Proof. run_ask. Qed.

Lemma ask_google_run env q st :
  ask_google env q st =
  match google_generate env q with
  | Ok r =>
      match index_chat env q r "google" (logged (Completion "google" q) st) with
      | (st', Ok _) => (st', Ok r)
      | (st', Raise e) => (st', Raise e)
      end
  | Raise e => (logged (Completion "google" q) st, Raise e)
  end.
Proof. run_ask. Qed.

(** The text returned when both steps succeed, and the one returned when
    either raises. *)
Lemma ask_llm_known_provider env q p answer st :
  q <> EmptyString ->
  In p providers ->
  completion env p (PStr q) = Ok answer ->
  handle_call_tool env "ask_llm" (ask_args q p) st =
  match index_chat env (PStr q) answer p (logged (Completion p (PStr q)) st) with
  | (st', Ok _) =>
      (st', Ok (text_content
                  ("**Question:** " ++ q ++ nl ++ nl
                     ++ "**Response from " ++ upper p ++ ":**" ++ nl ++ answer)))
  | (st', Raise e) =>
      (st', Ok (text_content ("Error asking " ++ p ++ ": " ++ exn_msg e)))
  end.
Proof.
  intros Hq Hp Hc. rewrite handle_call_tool_ask_llm. cbv zeta.
  change (dict_get (or_empty (ask_args q p)) "question" (PStr EmptyString))
    with (PStr q).
  change (dict_get (or_empty (ask_args q p)) "provider" (PStr "openai"))
    with (PStr p).
  rewrite (truthy_nonempty Hq). cbn [negb].
  destruct Hp as [<-|[<-|[<-|[]]]]; unfold completion in Hc; cbn in Hc;
    cbn [eq_str String.eqb Ascii.eqb Bool.eqb];
    unfold try_except, bind at 1;
    rewrite ?ask_openai_run, ?ask_anthropic_run, ?ask_google_run, Hc;
    match goal with
    | |- context [index_chat ?e ?a ?b ?c ?s] =>
        destruct (index_chat e a b c s) as [st' [[]|err]]
    end; reflexivity.
Qed.

(** C1, as amended.  For a non-empty question and one of the three
    providers whose completion call returns an answer, [ask_llm] returns the
    question and the answer under the provider's upper-cased name when the
    persistence step that follows succeeds, and returns the text
    [Error asking <provider>: <error>] in place of the answer when the
    persistence step raises. *)
Theorem ask_llm_answer_or_persistence_error env q p answer st st' outcome :
  q <> EmptyString ->
  In p providers ->
  completion env p (PStr q) = Ok answer ->
  index_chat env (PStr q) answer p (logged (Completion p (PStr q)) st)
    = (st', outcome) ->
  handle_call_tool env "ask_llm" (ask_args q p) st =
  (st', Ok (text_content
              match outcome with
              | Ok _ =>
                  "**Question:** " ++ q ++ nl ++ nl
                    ++ "**Response from " ++ upper p ++ ":**" ++ nl ++ answer
              | Raise e => "Error asking " ++ p ++ ": " ++ exn_msg e
              end)).
Proof.
  intros Hq Hp Hc Hidx.
  rewrite (@ask_llm_known_provider env q p answer st Hq Hp Hc), Hidx.
  destruct outcome; reflexivity.
Qed.

Lemma ask_llm_answer_or_persistence_error_witness :
  handle_call_tool env_up "ask_llm" (ask_args "2+2?" "anthropic") empty_state =
  ({| collection := [ new_record env_up "2+2?" "four" "anthropic" [1%R; 0%R] ];
      calls := [ Completion "anthropic" (PStr "2+2?");
                 EmbeddingsCreate (PStr (("2+2?" ++ nl) ++ "four"));
                 EsIndex (new_record env_up "2+2?" "four" "anthropic" [1%R; 0%R]) ] |},
   Ok (text_content
         ("**Question:** 2+2?" ++ nl ++ nl
            ++ "**Response from ANTHROPIC:**" ++ nl ++ "four"))).
Proof.
  apply (@ask_llm_answer_or_persistence_error env_up "2+2?" "anthropic" "four"
           empty_state _ (Ok tt)).
  - discriminate.
  - simpl. auto.
  - reflexivity.
  - reflexivity.
Defined.

(** C1, as stated, fails: the completion call answers [4], the write to the
    store then fails, and the caller receives the error text, in which the
    answer does not occur. *)
Lemma persistence_failure_masks_answer :
  completion env_store_down "openai" (PStr "2+2?") = Ok "4" /\
  index_chat env_store_down (PStr "2+2?") "4" "openai"
    (logged (Completion "openai" (PStr "2+2?")) empty_state)
  = ({| collection := [];
        calls := [ Completion "openai" (PStr "2+2?");
                   EmbeddingsCreate (PStr (("2+2?" ++ nl) ++ "4"));
                   EsIndex (new_record env_store_down "2+2?" "4" "openai"
                              [1%R; 0%R]) ] |},
     Raise (Exn "ConnectionError" "store unreachable")) /\
  snd (handle_call_tool env_store_down "ask_llm" (ask_args "2+2?" "openai")
         empty_state)
  = Ok (text_content "Error asking openai: store unreachable") /\
  occurs "4" "Error asking openai: store unreachable" = false.
Proof. repeat split; reflexivity. Qed.

(* ================================================================== *)
(** ** Which errors reach the host *)

(** [ask_llm] always ends in a text result. *)
Lemma ask_llm_always_text env arguments st :
  exists st' t,
    handle_call_tool env "ask_llm" arguments st = (st', Ok (text_content t)).
Proof.
  rewrite handle_call_tool_ask_llm. cbv zeta.
  set (question := dict_get (or_empty arguments) "question" (PStr EmptyString)).
  set (prov := dict_get (or_empty arguments) "provider" (PStr "openai")).
  destruct (truthy question); cbn [negb]; [|unfold ret; eauto].
  unfold try_except.
  destruct prov as [| b | n | p]; cbn [eq_str]; try (cbn; unfold ret; eauto; fail).
  destruct (String.eqb p "openai");
    [|destruct (String.eqb p "anthropic"); [|destruct (String.eqb p "google")]];
    try (unfold bind at 1);
    try match goal with
      | |- context [?ask env question st] =>
          destruct (ask env question st) as [st1 [resp|e]]
      end; cbn; unfold ret; eauto.
Qed.

(** [get_chat_stats] always ends in a text result. *)
Lemma get_chat_stats_always_text env arguments st :
  exists st' t,
    handle_call_tool env "get_chat_stats" arguments st = (st', Ok (text_content t)).
Proof.
  unfold handle_call_tool. cbn [String.eqb Ascii.eqb Bool.eqb].
  unfold try_except, bind at 1.
  destruct (Es.aggregate env st) as [st1 [resp|e]]; cbn; unfold ret; eauto.
Qed.

(** C2, at a failing input.  With the embedding provider unreachable,
    [search_chat_history] does not return a text result: the exception of the
    embedding call leaves [handle_call_tool] as it was raised. *)
Theorem search_chat_history_propagates_failure :
  handle_call_tool env_embedding_down "search_chat_history"
    (Some [ ("query", PStr "ingest pipeline") ]) empty_state =
  (logged (EmbeddingsCreate (PStr "ingest pipeline")) empty_state,
   Raise (Exn "APIConnectionError" "Connection error.")).
Proof. reflexivity. Qed.

(** The same holds when it is the read from the store that fails. *)
Lemma search_chat_history_propagates_store_failure :
  snd (handle_call_tool env_store_down "search_chat_history"
         (Some [ ("query", PStr "ingest pipeline") ]) empty_state) =
  Raise (Exn "ConnectionError" "store unreachable").
Proof. reflexivity. Qed.

(* ================================================================== *)
(** ** The listing of [search_chat_history] *)

Lemma string_app_assoc (a b c : string) : (a ++ b) ++ c = a ++ b ++ c.
Proof. induction a as [|x a IH]; simpl; [reflexivity | now rewrite IH]. Qed.

Lemma string_app_empty_r (a : string) : a ++ EmptyString = a.
Proof. induction a as [|x a IH]; simpl; [reflexivity | now rewrite IH]. Qed.

Lemma slice_to_short n s : String.length s <= n -> slice_to n s = s.
Proof.
  unfold slice_to. revert s.
  induction n as [|n IH]; intros [|c s] Hlen; simpl in *;
    try reflexivity; try lia.
  f_equal. apply IH. lia.
Qed.

Lemma slice_to_long n s :
  n <= String.length s ->
  exists tail, s = slice_to n s ++ tail /\ String.length (slice_to n s) = n.
Proof.
  unfold slice_to. revert s.
  induction n as [|n IH]; intros s Hlen.
  - exists s. destruct s; split; reflexivity.
  - destruct s as [|c s]; simpl in Hlen; [lia|].
    destruct (IH s) as [tail [Hs Hn]]; [lia|].
    exists tail. simpl. split; [now rewrite <- Hs | now rewrite Hn].
Qed.

(** For a record whose fields are text, the loop body of
    [search_chat_history] adds three lines to the listing; on the third, a
    response of more than 200 characters shows as its first 200 characters
    followed by the marker [...], and a response of 200 characters or fewer
    shows as it is, with nothing after it. *)
Theorem render_chat_truncates_long_responses env i chat acc ts p q r :
  dict_item chat "provider" = Ok (VStr p) ->
  dict_item chat "timestamp" = Ok (VStr ts) ->
  dict_item chat "query" = Ok (VStr q) ->
  dict_item chat "response" = Ok (VStr r) ->
  exists shown,
    render_chat env i chat acc =
    Ok (acc ++ str_of_nat i ++ ". **[" ++ upper p ++ "]** " ++ ts ++ nl
          ++ "   **Q:** " ++ q ++ nl
          ++ "   **A:** " ++ shown ++ nl ++ nl) /\
    (200 < String.length r ->
     exists head tail,
       r = head ++ tail /\ String.length head = 200 /\ shown = head ++ "...") /\
    (String.length r <= 200 -> shown = r).
Proof.
  intros Hp Ht Hq Hr.
  exists (slice_to 200 r
            ++ (if (200 <? String.length r)%nat then "..." else EmptyString)).
  split; [|split].
  - unfold render_chat, and_then. rewrite Hp. cbn [value_upper].
    rewrite Ht, Hq, Hr. cbn [value_format value_slice value_len].
    f_equal. rewrite !string_app_assoc. reflexivity.
  - intros Hlong. destruct (@slice_to_long 200 r) as [tail [Hs Hn]]; [lia|].
    exists (slice_to 200 r), tail. split; [exact Hs|]. split; [exact Hn|].
    destruct (Nat.ltb_spec 200 (String.length r)); [reflexivity | lia].
  - intros Hshort. rewrite (@slice_to_short 200 r Hshort).
    destruct (Nat.ltb_spec 200 (String.length r)); [lia|].
    apply string_app_empty_r.
Qed.

Lemma source_filter_metadata d :
  Es.source_filter ["timestamp"; "provider"; "query"; "response"] d = metadata d.
Proof. reflexivity. Qed.

Lemma render_chat_truncates_long_responses_witness :
  exists shown,
    render_chat env_up 1 (metadata sample_record) "Found 1 similar conversations:" =
    Ok ("Found 1 similar conversations:" ++ str_of_nat 1 ++ ". **[" ++ upper "openai"
          ++ "]** " ++ "2025-01-01T00:00:00" ++ nl
          ++ "   **Q:** " ++ "How do I configure my ingest pipeline?" ++ nl
          ++ "   **A:** " ++ shown ++ nl ++ nl) /\
    (200 < String.length "Define processors." ->
     exists head tail,
       "Define processors." = head ++ tail /\ String.length head = 200
       /\ shown = head ++ "...") /\
    (String.length "Define processors." <= 200 -> shown = "Define processors.").
Proof.
  apply (@render_chat_truncates_long_responses env_up 1 (metadata sample_record)
           "Found 1 similar conversations:" "2025-01-01T00:00:00" "openai"
           "How do I configure my ingest pipeline?" "Define processors.");
    reflexivity.
Defined.

Lemma render_chat_long_record_from acc :
  render_chat env_up 1 (metadata long_record) acc =
  Ok (acc ++ "1. **[GOOGLE]** 2025-01-01T00:00:00" ++ nl
        ++ "   **Q:** Tell me more." ++ nl
        ++ "   **A:** " ++ replicate 200 "a" ++ "..." ++ nl ++ nl).
Proof.
  unfold render_chat, and_then.
  change (dict_item (metadata long_record) "provider") with (Ok (VStr "google")).
  change (dict_item (metadata long_record) "timestamp")
    with (Ok (VStr "2025-01-01T00:00:00")).
  change (dict_item (metadata long_record) "query") with (Ok (VStr "Tell me more.")).
  change (dict_item (metadata long_record) "response")
    with (Ok (VStr (replicate 201 "a"))).
  cbn [value_upper value_format value_slice value_len].
  rewrite !string_app_assoc.
  apply (f_equal (fun t => Ok (acc ++ t))).
  vm_compute. reflexivity.
Qed.

(** A response of 201 characters is cut to 200 and marked. *)
Example render_chat_long_record :
  render_chat env_up 2 (metadata long_record) EmptyString =
  Ok ("2. **[GOOGLE]** 2025-01-01T00:00:00" ++ nl
        ++ "   **Q:** Tell me more." ++ nl
        ++ "   **A:** " ++ replicate 200 "a" ++ "..." ++ nl ++ nl).
Proof. vm_compute. reflexivity. Qed.

(* ================================================================== *)
(** ** What is written to the collection *)

Section Writes.

Variable P : ChatRecord -> Prop.

Lemma writes_nothing {A} (m : M A) :
  (forall st, collection (fst (m st)) = collection st) -> writes P m.
Proof.
  intros H st. exists []. rewrite H, app_nil_r. split; [reflexivity | constructor].
Qed.

Lemma writes_ret {A} (a : A) : writes P (ret a).
Proof. now apply writes_nothing. Qed.

Lemma writes_raise {A} (e : exn) : writes P (@raise A e).
Proof. now apply writes_nothing. Qed.

Lemma writes_lift {A} (r : result A) : writes P (lift r).
Proof. now apply writes_nothing. Qed.

Lemma writes_record_call c : writes P (record_call c).
Proof. now apply writes_nothing. Qed.

Lemma writes_bind {A B} (m : M A) (k : A -> M B) :
  writes P m -> (forall a, writes P (k a)) -> writes P (bind m k).
Proof.
  intros Hm Hk st. unfold bind.
  destruct (Hm st) as [w1 [E1 F1]].
  destruct (m st) as [st1 [a|e]]; cbn [fst] in *.
  - destruct (Hk a st1) as [w2 [E2 F2]].
    exists (w1 ++ w2)%list. split.
    + now rewrite E2, E1, app_assoc.
    + apply Forall_app. now split.
  - exists w1. now split.
Qed.

Lemma writes_try_except {A} (body : M A) (handler : exn -> M A) :
  writes P body -> (forall e, writes P (handler e)) ->
  writes P (try_except body handler).
Proof.
  intros Hb Hh st. unfold try_except.
  destruct (Hb st) as [w1 [E1 F1]].
  destruct (body st) as [st1 [a|e]]; cbn [fst] in *.
  - exists w1. now split.
  - destruct (Hh e st1) as [w2 [E2 F2]].
    exists (w1 ++ w2)%list. split.
    + now rewrite E2, E1, app_assoc.
    + apply Forall_app. now split.
Qed.

Lemma writes_get_embedding env text : writes P (_get_embedding env text).
Proof.
  unfold _get_embedding.
  apply writes_bind; [apply writes_record_call | intros _; apply writes_lift].
Qed.

Lemma writes_es_search env body : writes P (Es.search env body).
Proof.
  unfold Es.search. apply writes_bind; [apply writes_record_call|].
  intros _. apply writes_nothing. intros st.
  destruct (es_search_error env); [reflexivity|].
  destruct (body_size body); try reflexivity.
  destruct (n <? 0)%Z; [reflexivity|].
  destruct (Es.score_all body (collection st)); reflexivity.
Qed.

Lemma writes_es_aggregate env : writes P (Es.aggregate env).
Proof.
  unfold Es.aggregate. apply writes_bind; [apply writes_record_call|].
  intros _. apply writes_nothing. intros st.
  destruct (es_search_error env); reflexivity.
Qed.

Lemma writes_search_similar_chats env query size :
  writes P (search_similar_chats env query size).
Proof.
  unfold search_similar_chats.
  apply writes_bind; [apply writes_get_embedding|]. intros qv.
  apply writes_bind; [apply writes_es_search | intros; apply writes_ret].
Qed.

End Writes.

Lemma writes_weaken {A} (P Q : ChatRecord -> Prop) (m : M A) :
  (forall d, P d -> Q d) -> writes P m -> writes Q m.
Proof.
  intros HPQ Hm st. destruct (Hm st) as [w [E F]].
  exists w. split; [exact E|]. eapply Forall_impl; eauto.
Qed.

Lemma writes_index_chat env q r p :
  writes (fun d => provider d = p) (index_chat env q r p).
Proof. intros st. apply index_chat_writes. Qed.

Lemma writes_index_chat_enumerated env q r p :
  In p providers -> writes enumerated (index_chat env q r p).
Proof.
  intros Hp. apply writes_weaken with (P := fun d => provider d = p).
  - intros d Hd. unfold enumerated. now rewrite Hd.
  - apply writes_index_chat.
Qed.

Ltac writes_ask :=
  apply writes_bind; [apply writes_record_call|]; intros _;
  apply writes_bind; [apply writes_lift|]; intros response;
  apply writes_bind;
  [apply writes_index_chat_enumerated; simpl; auto | intros _; apply writes_ret].

Lemma writes_ask_openai env q : writes enumerated (ask_openai env q).
Proof. unfold ask_openai. writes_ask. Qed.

Lemma writes_ask_anthropic env q : writes enumerated (ask_anthropic env q).
Proof. unfold ask_anthropic. writes_ask. Qed.

Lemma writes_ask_google env q : writes enumerated (ask_google env q).
Proof. unfold ask_google. writes_ask. Qed.

Lemma writes_handle_call_tool env name arguments :
  writes enumerated (handle_call_tool env name arguments).
Proof.
  unfold handle_call_tool. cbv zeta.
  destruct (String.eqb name "search_chat_history").
  { apply writes_bind; [apply writes_search_similar_chats|].
    intros [|chat rest]; [apply writes_ret|].
    apply writes_bind; [apply writes_lift | intros; apply writes_ret]. }
  destruct (String.eqb name "ask_llm").
  { destruct (negb _); [apply writes_ret|].
    apply writes_try_except; [|intros; apply writes_ret].
    repeat match goal with
      | |- writes _ (if ?b then _ else _) => destruct b
      end;
      try apply writes_ret;
      (apply writes_bind;
       [first [apply writes_ask_openai | apply writes_ask_anthropic
              | apply writes_ask_google]|]);
      intros response;
      (apply writes_bind; [apply writes_lift | intros; apply writes_ret]). }
  destruct (String.eqb name "get_chat_stats").
  { apply writes_try_except; [|intros; apply writes_ret].
    apply writes_bind; [apply writes_es_aggregate | intros; apply writes_ret]. }
  apply writes_raise.
Qed.

Lemma writes_handle_read_resource env uri :
  writes enumerated (handle_read_resource env uri).
Proof.
  unfold handle_read_resource. destruct (String.eqb uri "chat://history").
  - apply writes_bind; [apply writes_search_similar_chats | intros; apply writes_ret].
  - apply writes_raise.
Qed.

Lemma serve_writes env r st :
  exists written,
    collection (serve env r st) = (collection st ++ written)%list /\
    Forall enumerated written.
Proof.
  destruct r; cbn [serve].
  - apply writes_handle_call_tool.
  - apply writes_handle_read_resource.
  - apply writes_ask_openai.
  - apply writes_ask_anthropic.
  - apply writes_ask_google.
  - apply writes_search_similar_chats.
Qed.

(** C9.  Serving a request, whatever the environment, the request and the
    state, leaves the collection as it was but for the records it appends,
    and the provider of every appended record is one of [openai],
    [anthropic], [google]: the only writes are those of the three [ask_]
    methods, each passing its own provider name to [index_chat]. *)
Theorem written_records_carry_enumerated_provider env r st :
  exists written,
    collection (serve env r st) = (collection st ++ written)%list /\
    Forall enumerated written.
Proof.
  destruct (serve_writes env r st) as [written [Hcoll Hall]].
  exists written. split; assumption.
Qed.

(** Hence every record of a collection that the system has filled from
    empty carries an enumerated provider. *)
Lemma reachable_collection_enumerated st :
  reachable st -> Forall enumerated (collection st).
Proof.
  induction 1 as [|env r st Hreach IH].
  - constructor.
  - destruct (serve_writes env r st) as [written [-> Hall]].
    apply Forall_app. now split.
Qed.

(* ================================================================== *)
(** ** The range of the similarity score *)

Section Cosine.

Local Open Scope R_scope.

Lemma dot_self_nonneg a : 0 <= dot a a.
Proof.
  induction a as [|x a IH]; simpl; [lra|].
  pose proof (Rle_0_sqr x) as Hx. unfold Rsqr in Hx. lra.
Qed.

Lemma norm_nonneg a : 0 <= norm a.
Proof. apply sqrt_pos. Qed.

Lemma norm_sqr a : (norm a)² = dot a a.
Proof. apply Rsqr_sqrt, dot_self_nonneg. Qed.

Lemma norm_cons x a : norm (x :: a) = sqrt ((Rabs x)² + (norm a)²).
Proof.
  unfold norm at 1. simpl. rewrite norm_sqr, <- Rsqr_abs. reflexivity.
Qed.

(** The Cauchy-Schwarz inequality for the dot product of two lists. *)
Lemma dot_le_norms a : forall b, Rabs (dot a b) <= norm a * norm b.
Proof.
  induction a as [|x a IH]; intros [|y b]; simpl dot;
    try (rewrite Rabs_R0; apply Rmult_le_pos; apply norm_nonneg).
  rewrite !norm_cons.
  eapply Rle_trans; [apply Rabs_triang|].
  rewrite Rabs_mult.
  eapply Rle_trans; [|apply sqrt_cauchy].
  specialize (IH b). lra.
Qed.

Lemma cosine_similarity_range a b :
  norm a * norm b <> 0 -> -1 <= cosine_similarity a b <= 1.
Proof.
  intros Hnz.
  assert (Hpos : 0 < norm a * norm b).
  { pose proof (Rmult_le_pos _ _ (norm_nonneg a) (norm_nonneg b)). lra. }
  pose proof (dot_le_norms a b) as Hcs.
  assert (Hb : - (norm a * norm b) <= dot a b <= norm a * norm b).
  { unfold Rabs in Hcs. destruct (Rcase_abs (dot a b)); lra. }
  unfold cosine_similarity. split.
  - apply Rmult_le_reg_r with (norm a * norm b); [exact Hpos|].
    unfold Rdiv. rewrite Rmult_assoc, Rinv_l by exact Hnz. lra.
  - apply Rmult_le_reg_r with (norm a * norm b); [exact Hpos|].
    unfold Rdiv. rewrite Rmult_assoc, Rinv_l by exact Hnz. lra.
Qed.

Lemma score_of_range qv d : scorable qv d -> 0 <= score_of qv d <= 2.
Proof.
  intros [_ Hnz]. unfold score_of.
  pose proof (@cosine_similarity_range qv (embedding d) Hnz). lra.
Qed.

Lemma eval_search_script qv size d :
  scorable qv d ->
  Es.eval_script (script_source (search_request qv size))
    (script_params (search_request qv size)) d
  = Some (score_of qv d).
Proof.
  intros [Hlen Hnz]. cbn.
  rewrite Hlen, Nat.eqb_refl.
  destruct (Req_EM_T (norm qv * norm (embedding d)) 0); [contradiction|].
  reflexivity.
Qed.

Lemma script_score_search_request qv size d :
  scorable qv d ->
  Es.script_score (search_request qv size) d = Some (score_of qv d).
Proof.
  intros Hs. unfold Es.script_score. rewrite (@eval_search_script qv size d Hs).
  destruct (Rlt_dec (score_of qv d) 0) as [Hneg|_]; [|reflexivity].
  pose proof (@score_of_range qv d Hs). lra.
Qed.

End Cosine.

Lemma norm_unit_x : norm [1%R; 0%R] = 1%R.
Proof.
  unfold norm. simpl.
  replace (1 * 1 + (0 * 0 + 0))%R with 1%R by lra. apply sqrt_1.
Qed.

Lemma norm_unit_y : norm [0%R; 1%R] = 1%R.
Proof.
  unfold norm. simpl.
  replace (0 * 0 + (1 * 1 + 0))%R with 1%R by lra. apply sqrt_1.
Qed.

Lemma scorable_sample_record : scorable [1%R; 0%R] sample_record.
Proof.
  split; [reflexivity|]. cbn [sample_record new_record embedding].
  rewrite norm_unit_x. lra.
Qed.

Lemma scorable_long_record : scorable [1%R; 0%R] long_record.
Proof.
  split; [reflexivity|]. cbn [long_record new_record embedding].
  rewrite norm_unit_x, norm_unit_y. lra.
Qed.

(** The score that the store computes from the request [search_request] for
    a query vector and a record whose vectors have one length and non-zero
    magnitude is the cosine similarity plus 1, between 0 and 2. *)
Theorem search_score_is_cosine_plus_one qv size d :
  scorable qv d ->
  Es.script_score (search_request qv size) d
    = Some (cosine_similarity qv (embedding d) + 1)%R /\
  (0 <= cosine_similarity qv (embedding d) + 1 <= 2)%R.
Proof.
  intros Hs. split.
  - exact (@script_score_search_request qv size d Hs).
  - exact (@score_of_range qv d Hs).
Qed.

Lemma search_score_is_cosine_plus_one_witness :
  scorable [1%R; 0%R] long_record /\
  Es.script_score (search_request [1%R; 0%R] (PInt 5)) long_record
    = Some (cosine_similarity [1%R; 0%R] [0%R; 1%R] + 1)%R /\
  (0 <= cosine_similarity [1%R; 0%R] [0%R; 1%R] + 1 <= 2)%R.
Proof.
  split; [exact scorable_long_record|].
  exact (@search_score_is_cosine_plus_one [1%R; 0%R] (PInt 5) long_record
           scorable_long_record).
Defined.

(* ================================================================== *)
(** ** The ranking of [search_similar_chats] *)

Lemma insert_desc_perm x l : Permutation (Es.insert_desc x l) (x :: l).
Proof.
  induction l as [|y l IH]; simpl; [reflexivity|].
  destruct (Rle_dec (fst x) (fst y)); [|reflexivity].
  rewrite IH. apply perm_swap.
Qed.

Lemma sort_desc_perm l : Permutation (Es.sort_desc l) l.
Proof.
  induction l as [|x l IH]; simpl; [reflexivity|].
  rewrite insert_desc_perm. now constructor.
Qed.

Lemma insert_desc_sorted x l :
  StronglySorted listed_before l -> StronglySorted listed_before (Es.insert_desc x l).
Proof.
  induction 1 as [|y l Hsorted IH Hall]; simpl.
  - repeat constructor.
  - destruct (Rle_dec (fst x) (fst y)) as [Hle|Hgt].
    + constructor; [exact IH|].
      eapply Permutation_Forall; [symmetry; apply insert_desc_perm|].
      constructor; assumption.
    + constructor; [now constructor|].
      assert (Hxy : listed_before x y) by (unfold listed_before; lra).
      constructor; [exact Hxy|].
      eapply Forall_impl; [|exact Hall].
      unfold listed_before in *. intros z Hz. lra.
Qed.

Lemma sort_desc_sorted l : StronglySorted listed_before (Es.sort_desc l).
Proof.
  induction l as [|x l IH]; simpl; [constructor | now apply insert_desc_sorted].
Qed.

Lemma StronglySorted_app_inv {A} (rel : A -> A -> Prop) l1 l2 :
  StronglySorted rel (l1 ++ l2) ->
  StronglySorted rel l1 /\ StronglySorted rel l2 /\
  Forall (fun x => Forall (rel x) l2) l1.
Proof.
  induction l1 as [|x l1 IH]; simpl; intros Hs.
  - repeat split; [constructor | exact Hs | constructor].
  - inversion Hs as [|? ? Hs' Hall]; subst.
    destruct (IH Hs') as [H1 [H2 H3]].
    apply Forall_app in Hall as [Hall1 Hall2].
    repeat split; [now constructor | exact H2 | now constructor].
Qed.

Lemma score_all_scorable qv size docs :
  Forall (scorable qv) docs ->
  Es.score_all (search_request qv size) docs
    = Some (map (fun d => (score_of qv d, d)) docs).
Proof.
  induction 1 as [|d docs Hd Hdocs IH]; [reflexivity|].
  cbn [Es.score_all map].
  now rewrite (@script_score_search_request qv size d Hd), IH.
Qed.

Lemma search_similar_chats_run env q size st :
  search_similar_chats env q size st =
  match embeddings_create env q with
  | Ok qv =>
      match Es.search env (search_request qv size)
              (logged (EmbeddingsCreate q) st) with
      | (st', Ok hits) => (st', Ok (map hit_source hits))
      | (st', Raise e) => (st', Raise e)
      end
  | Raise e => (logged (EmbeddingsCreate q) st, Raise e)
  end.
Proof.
  unfold search_similar_chats, _get_embedding, bind at 1 2, record_call, lift.
  fold (logged (EmbeddingsCreate q) st).
  destruct (embeddings_create env q) as [qv|e]; [|reflexivity].
  fold (search_request qv size). unfold bind, ret.
  destruct (Es.search env (search_request qv size)
              (logged (EmbeddingsCreate q) st)) as [st' [hits|e]]; reflexivity.
Qed.

Lemma es_search_run env qv n st :
  (0 <= n)%Z ->
  es_search_error env = None ->
  Forall (scorable qv) (collection st) ->
  Es.search env (search_request qv (PInt n)) st =
  (logged (EsSearch (search_request qv (PInt n))) st,
   Ok (map (Es.make_hit ["timestamp"; "provider"; "query"; "response"])
         (firstn (Z.to_nat n)
            (Es.sort_desc (map (fun d => (score_of qv d, d)) (collection st)))))).
Proof.
  intros Hn Hup Hsc. unfold Es.search, bind, record_call.
  fold (logged (EsSearch (search_request qv (PInt n))) st).
  rewrite Hup. cbn [body_size search_request].
  destruct (Z.ltb_spec n 0); [lia|].
  cbn [collection logged].
  now rewrite (@score_all_scorable qv (PInt n) (collection st) Hsc).
Qed.

Lemma listed_scores qv l :
  Forall (fun sd : R * ChatRecord => fst sd = score_of qv (snd sd)) l ->
  StronglySorted listed_before l ->
  StronglySorted (scores_desc qv) (map snd l).
Proof.
  intros Hinv Hs. induction Hs as [|x l Hs IH Hall]; simpl; [constructor|].
  inversion Hinv as [|? ? Hx Hl]; subst.
  constructor; [now apply IH|].
  rewrite Forall_forall in *. intros d Hd.
  apply in_map_iff in Hd as [y [<- Hy]].
  unfold scores_desc. rewrite <- Hx, <- (Hl y Hy). now apply Hall.
Qed.

(** C3.  For a query whose embedding is obtained, a positive limit [n] and
    a store that answers and whose records can all be scored,
    [search_similar_chats]
    returns the metadata of the records [top], where [top] and the records
    left out make up the collection; [top] has at most [n] records, no more
    than the collection holds, and all of them when the collection holds at
    most [n]; [top] is in descending order of score and no record left out
    scores higher than a returned one; and each returned record has exactly
    the keys [timestamp], [provider], [query], [response], so the embedding
    vector is not among them. *)
Theorem search_returns_top_metadata env q n qv st :
  (0 < n)%Z ->
  embeddings_create env q = Ok qv ->
  es_search_error env = None ->
  Forall (scorable qv) (collection st) ->
  exists top rest,
    search_similar_chats env q (PInt n) st =
      (logged (EsSearch (search_request qv (PInt n)))
         (logged (EmbeddingsCreate q) st),
       Ok (map metadata top)) /\
    Permutation (top ++ rest) (collection st) /\
    (List.length top <= Z.to_nat n)%nat /\
    (List.length top <= List.length (collection st))%nat /\
    ((List.length (collection st) <= Z.to_nat n)%nat -> rest = []) /\
    StronglySorted (scores_desc qv) top /\
    Forall (fun d => Forall (fun t => scores_desc qv t d) top) rest /\
    Forall (fun src => keys src = ["timestamp"; "provider"; "query"; "response"])
      (map metadata top).
Proof.
  intros Hn Hemb Hup Hsc.
  set (scored := map (fun d => (score_of qv d, d)) (collection st)).
  set (sorted := Es.sort_desc scored).
  set (k := Z.to_nat n).
  assert (Hperm : Permutation sorted scored) by apply sort_desc_perm.
  assert (Hlen : List.length sorted = List.length (collection st)).
  { rewrite (Permutation_length Hperm). apply length_map. }
  assert (Hinv : Forall (fun sd : R * ChatRecord => fst sd = score_of qv (snd sd))
                   sorted).
  { eapply Permutation_Forall; [symmetry; exact Hperm|].
    unfold scored. apply Forall_forall. intros sd Hsd.
    apply in_map_iff in Hsd as [d [<- _]]. reflexivity. }
  assert (Hsorted : StronglySorted listed_before (firstn k sorted ++ skipn k sorted)).
  { rewrite firstn_skipn. apply sort_desc_sorted. }
  apply StronglySorted_app_inv in Hsorted as [Hs1 [_ Hcross]].
  rewrite <- (firstn_skipn k sorted) in Hinv.
  apply Forall_app in Hinv as [Hinv1 Hinv2].
  exists (map snd (firstn k sorted)), (map snd (skipn k sorted)).
  repeat split.
  - rewrite search_similar_chats_run, Hemb.
    rewrite (@es_search_run env qv n (logged (EmbeddingsCreate q) st));
      [|lia|exact Hup|exact Hsc].
    cbn [collection logged]. fold scored. fold sorted. fold k.
    rewrite !map_map. reflexivity.
  - rewrite <- map_app, firstn_skipn.
    rewrite (Permutation_map snd Hperm). unfold scored.
    rewrite map_map. cbn [snd]. now rewrite map_id.
  - rewrite length_map, length_firstn. lia.
  - rewrite length_map, length_firstn. lia.
  - intros Hall. rewrite skipn_all2; [reflexivity | lia].
  - now apply listed_scores.
  - rewrite Forall_forall in *. intros d Hd.
    apply in_map_iff in Hd as [y [<- Hy]].
    apply Forall_forall. intros t Ht.
    apply in_map_iff in Ht as [x [<- Hx]].
    unfold scores_desc. rewrite <- (Hinv1 x Hx), <- (Hinv2 y Hy).
    specialize (Hcross x Hx). rewrite Forall_forall in Hcross.
    now apply Hcross.
  - apply Forall_forall. intros src Hsrc.
    apply in_map_iff in Hsrc as [d [<- _]]. reflexivity.
Qed.

Lemma search_returns_top_metadata_witness :
  exists top rest,
    search_similar_chats env_up (PStr "ingest pipeline") (PInt 1) sample_state =
      (logged (EsSearch (search_request [1%R; 0%R] (PInt 1)))
         (logged (EmbeddingsCreate (PStr "ingest pipeline")) sample_state),
       Ok (map metadata top)) /\
    Permutation (top ++ rest) (collection sample_state) /\
    (List.length top <= Z.to_nat 1)%nat /\
    (List.length top <= List.length (collection sample_state))%nat /\
    ((List.length (collection sample_state) <= Z.to_nat 1)%nat -> rest = []) /\
    StronglySorted (scores_desc [1%R; 0%R]) top /\
    Forall (fun d => Forall (fun t => scores_desc [1%R; 0%R] t d) top) rest /\
    Forall (fun src => keys src = ["timestamp"; "provider"; "query"; "response"])
      (map metadata top).
Proof.
  apply (@search_returns_top_metadata env_up (PStr "ingest pipeline") 1%Z
           [1%R; 0%R] sample_state).
  - lia.
  - reflexivity.
  - reflexivity.
  - constructor; [exact scorable_sample_record|].
    constructor; [exact scorable_long_record | constructor].
Defined.

Lemma score_of_sample_record : score_of [1%R; 0%R] sample_record = 2%R.
Proof.
  unfold score_of, cosine_similarity.
  cbn [sample_record new_record embedding]. rewrite norm_unit_x.
  simpl. field.
Qed.

Lemma score_of_long_record : score_of [1%R; 0%R] long_record = 1%R.
Proof.
  unfold score_of, cosine_similarity.
  cbn [long_record new_record embedding]. rewrite norm_unit_x, norm_unit_y.
  simpl. field.
Qed.

(** With two stored records and limit 1, the search returns the metadata of
    the record whose vector is the query vector, ahead of the orthogonal
    one. *)
Example search_sample_state :
  snd (search_similar_chats env_up (PStr "ingest pipeline") (PInt 1) sample_state)
  = Ok [ metadata sample_record ].
Proof.
  rewrite search_similar_chats_run. cbn [embeddings_create env_up].
  rewrite (@es_search_run env_up [1%R; 0%R] 1%Z);
    [|lia|reflexivity|].
  - cbn [snd collection logged sample_state map Es.sort_desc Es.insert_desc fst].
    rewrite score_of_sample_record, score_of_long_record.
    destruct (Rle_dec 2 1) as [Hle|_]; [lra|]. reflexivity.
  - constructor; [exact scorable_sample_record|].
    constructor; [exact scorable_long_record | constructor].
Qed.

(** The whole answer of [search_chat_history] over a collection that holds
    the record with the response of 201 characters. *)
Example search_chat_history_long_state :
  snd (handle_call_tool env_up "search_chat_history"
         (Some [ ("query", PStr "more"); ("limit", PInt 3) ]) long_state)
  = Ok (text_content
          ("Found 1 similar conversations:" ++ nl ++ nl
             ++ "1. **[GOOGLE]** 2025-01-01T00:00:00" ++ nl
             ++ "   **Q:** Tell me more." ++ nl
             ++ "   **A:** " ++ replicate 200 "a" ++ "..." ++ nl ++ nl)).
Proof.
  unfold handle_call_tool. cbv zeta.
  change (String.eqb "search_chat_history" "search_chat_history") with true.
  cbv iota. unfold bind at 1.
  change (dict_get _ "query" _) with (PStr "more").
  change (dict_get _ "limit" _) with (PInt 3).
  rewrite search_similar_chats_run. cbn [embeddings_create env_up].
  rewrite (@es_search_run env_up [1%R; 0%R] 3%Z);
    [|lia|reflexivity|].
  - cbn [collection logged long_state map Es.sort_desc Es.insert_desc firstn
           Z.to_nat Pos.to_nat Pos.iter_op Nat.add hit_source Es.make_hit snd].
    change (Pos.to_nat 3) with 3%nat.
    cbn [firstn map hit_source Es.make_hit snd].
    rewrite source_filter_metadata.
    unfold bind, lift, ret. cbn [snd].
    change (List.length [metadata long_record]) with 1%nat.
    cbn [render_loop and_then].
    rewrite render_chat_long_record_from. reflexivity.
  - constructor; [exact scorable_long_record | constructor].
Qed.

(* ================================================================== *)
(** ** Further properties of [index_chat] and [ask_llm] *)

(** Either [index_chat] appends the record built from a text query and the
    vector it obtained, or it raises and the collection is as before. *)
Lemma index_chat_outcome env q r p st :
  (exists qs v,
      q = PStr qs /\
      embeddings_create env (PStr ((qs ++ nl) ++ r)) = Ok v /\
      index_chat env q r p st =
      ({| collection := collection st ++ [new_record env qs r p v];
          calls := calls st ++ [ EmbeddingsCreate (PStr ((qs ++ nl) ++ r));
                                 EsIndex (new_record env qs r p v) ] |}, Ok tt))
  \/ (exists st' e,
         index_chat env q r p st = (st', Raise e) /\
         collection st' = collection st).
Proof.
  destruct q as [| b | n | qs];
    try (right; eexists; eexists; split; reflexivity).
  rewrite index_chat_str.
  destruct (embeddings_create env (PStr ((qs ++ nl) ++ r))) as [v|e] eqn:Hemb.
  - destruct (es_index_error env (new_record env qs r p v)) as [e|].
    + right. eexists; eexists; split; reflexivity.
    + left. exists qs, v. split; [reflexivity|]. split; [exact Hemb | reflexivity].
  - right. eexists; eexists; split; reflexivity.
Qed.

(** X1.  When [index_chat] raises, whether for a query that is not text, a
    failed embedding request or a failed write, the collection is exactly
    what it was: no partial record is left behind. *)
Theorem index_chat_failure_writes_nothing env q r p st st' e :
  index_chat env q r p st = (st', Raise e) ->
  collection st' = collection st.
Proof.
  intros Hraise.
  destruct (index_chat_outcome env q r p st)
    as [[qs [v [_ [_ Hok]]]] | [st1 [e1 [Hfail Hsame]]]].
  - rewrite Hok in Hraise. discriminate Hraise.
  - rewrite Hfail in Hraise. injection Hraise as <- _. exact Hsame.
Qed.

Lemma index_chat_failure_writes_nothing_witness :
  collection
    {| collection := collection sample_state;
       calls := [ EmbeddingsCreate (PStr (("2+2?" ++ nl) ++ "4"));
                  EsIndex (new_record env_store_down "2+2?" "4" "openai"
                             [1%R; 0%R]) ] |}
  = collection sample_state.
Proof.
  apply (@index_chat_failure_writes_nothing env_store_down (PStr "2+2?") "4"
           "openai" sample_state _ (Exn "ConnectionError" "store unreachable")).
  reflexivity.
Defined.

(** The branch of [ask_llm] for each of the three providers. *)
Lemma ask_llm_branch env q p st :
  q <> EmptyString ->
  In p providers ->
  handle_call_tool env "ask_llm" (ask_args q p) st =
  match completion env p (PStr q) with
  | Ok answer =>
      match index_chat env (PStr q) answer p (logged (Completion p (PStr q)) st) with
      | (st', Ok _) => (st', Ok (text_content (answer_text q p answer)))
      | (st', Raise e) =>
          (st', Ok (text_content ("Error asking " ++ p ++ ": " ++ exn_msg e)))
      end
  | Raise e =>
      (logged (Completion p (PStr q)) st,
       Ok (text_content ("Error asking " ++ p ++ ": " ++ exn_msg e)))
  end.
Proof.
  intros Hq Hp.
  destruct (completion env p (PStr q)) as [answer|e] eqn:Hc.
  - exact (@ask_llm_known_provider env q p answer st Hq Hp Hc).
  - rewrite handle_call_tool_ask_llm. cbv zeta.
    change (dict_get (or_empty (ask_args q p)) "question" (PStr EmptyString))
      with (PStr q).
    change (dict_get (or_empty (ask_args q p)) "provider" (PStr "openai"))
      with (PStr p).
    rewrite (truthy_nonempty Hq). cbn [negb].
    destruct Hp as [<-|[<-|[<-|[]]]]; unfold completion in Hc; cbn in Hc;
      cbn [eq_str String.eqb Ascii.eqb Bool.eqb];
      unfold try_except, bind at 1;
      rewrite ?ask_openai_run, ?ask_anthropic_run, ?ask_google_run, Hc;
      reflexivity.
Qed.

(** X2.  When the completion call of the chosen provider raises, [ask_llm]
    returns the text [Error asking <provider>: <error>]; the completion
    request is the only call made, so no embedding is requested and nothing
    is written. *)
Theorem ask_llm_provider_failure env q p e st :
  q <> EmptyString ->
  In p providers ->
  completion env p (PStr q) = Raise e ->
  handle_call_tool env "ask_llm" (ask_args q p) st =
  (logged (Completion p (PStr q)) st,
   Ok (text_content ("Error asking " ++ p ++ ": " ++ exn_msg e))).
Proof.
  intros Hq Hp Hc. rewrite (@ask_llm_branch env q p st Hq Hp), Hc. reflexivity.
Qed.

Lemma ask_llm_provider_failure_witness :
  handle_call_tool env_provider_down "ask_llm" (ask_args "2+2?" "google")
    sample_state =
  (logged (Completion "google" (PStr "2+2?")) sample_state,
   Ok (text_content "Error asking google: 504 Deadline Exceeded")).
Proof.
  apply (@ask_llm_provider_failure env_provider_down "2+2?" "google"
           (Exn "DeadlineExceeded" "504 Deadline Exceeded") sample_state).
  - discriminate.
  - simpl. auto.
  - reflexivity.
Defined.

(** X3.  For a non-empty question and one of the three providers, [ask_llm]
    returns the answer exactly when it has stored the exchange: either the
    collection gains the one record of this question, answer and provider
    and the text is the answer under its heading, or the collection is
    unchanged and the text is an error message. *)
Theorem ask_llm_answers_iff_stored env q p st :
  q <> EmptyString ->
  In p providers ->
  exists st' t,
    handle_call_tool env "ask_llm" (ask_args q p) st = (st', Ok (text_content t)) /\
    ((exists answer v,
         completion env p (PStr q) = Ok answer /\
         collection st' = (collection st ++ [new_record env q answer p v])%list /\
         t = answer_text q p answer)
     \/ (collection st' = collection st /\
         exists e, t = "Error asking " ++ p ++ ": " ++ exn_msg e)).
Proof.
  intros Hq Hp. rewrite (@ask_llm_branch env q p st Hq Hp).
  destruct (completion env p (PStr q)) as [answer|e].
  - destruct (index_chat_outcome env (PStr q) answer p
                (logged (Completion p (PStr q)) st))
      as [[qs [v [Hqs [_ Hok]]]] | [st1 [e1 [Hfail Hsame]]]].
    + injection Hqs as <-. rewrite Hok.
      eexists; eexists; split; [reflexivity|].
      left. exists answer, v. repeat split; reflexivity.
    + rewrite Hfail.
      eexists; eexists; split; [reflexivity|].
      right. split; [exact Hsame | eauto].
  - eexists; eexists; split; [reflexivity|].
    right. split; [reflexivity | eauto].
Qed.

Lemma ask_llm_answers_iff_stored_witness :
  exists st' t,
    handle_call_tool env_up "ask_llm" (ask_args "2+2?" "openai") sample_state
      = (st', Ok (text_content t)) /\
    ((exists answer v,
         completion env_up "openai" (PStr "2+2?") = Ok answer /\
         collection st'
           = (collection sample_state
                ++ [new_record env_up "2+2?" answer "openai" v])%list /\
         t = answer_text "2+2?" "openai" answer)
     \/ (collection st' = collection sample_state /\
         exists e, t = "Error asking " ++ "openai" ++ ": " ++ exn_msg e)).
Proof.
  apply (@ask_llm_answers_iff_stored env_up "2+2?" "openai" sample_state).
  - discriminate.
  - simpl. auto.
Defined.

(** X4.  When the provider answers, the embedding of the question, a line
    feed and the answer is obtained, and the store accepts the write,
    [ask_llm] makes exactly three calls in this order (completion, embedding,
    write), appends the one record of the exchange, and returns the question
    and the answer under the upper-cased provider name. *)
Theorem ask_llm_success env q p answer v st :
  q <> EmptyString ->
  In p providers ->
  completion env p (PStr q) = Ok answer ->
  embeddings_create env (PStr ((q ++ nl) ++ answer)) = Ok v ->
  es_index_error env (new_record env q answer p v) = None ->
  handle_call_tool env "ask_llm" (ask_args q p) st =
  ({| collection := collection st ++ [new_record env q answer p v];
      calls := calls st ++ [ Completion p (PStr q);
                             EmbeddingsCreate (PStr ((q ++ nl) ++ answer));
                             EsIndex (new_record env q answer p v) ] |},
   Ok (text_content (answer_text q p answer))).
Proof.
  intros Hq Hp Hc Hemb Hes.
  rewrite (@ask_llm_branch env q p st Hq Hp), Hc, index_chat_str, Hemb, Hes.
  cbn [logged collection calls]. now rewrite <- app_assoc.
Qed.

Lemma ask_llm_success_witness :
  handle_call_tool env_up "ask_llm" (ask_args "2+2?" "google") sample_state =
  ({| collection :=
        collection sample_state
          ++ [new_record env_up "2+2?" "2+2=4" "google" [1%R; 0%R]];
      calls :=
        calls sample_state
          ++ [ Completion "google" (PStr "2+2?");
               EmbeddingsCreate (PStr (("2+2?" ++ nl) ++ "2+2=4"));
               EsIndex (new_record env_up "2+2?" "2+2=4" "google" [1%R; 0%R]) ] |},
   Ok (text_content (answer_text "2+2?" "google" "2+2=4"))).
Proof.
  apply (@ask_llm_success env_up "2+2?" "google" "2+2=4" [1%R; 0%R] sample_state).
  - discriminate.
  - simpl. auto.
  - reflexivity.
  - reflexivity.
  - reflexivity.
Defined.

(** What a record written for the question [q] through provider [p] looks
    like. *)
Lemma index_chat_record env q r p st :
  exists written,
    collection (fst (index_chat env q r p st)) = (collection st ++ written)%list /\
    (List.length written <= 1)%nat /\
    Forall (fun d => q = PStr (query d) /\ provider d = p /\ response d = r
                     /\ timestamp d = now_isoformat env) written.
Proof.
  destruct (index_chat_outcome env q r p st)
    as [[qs [v [-> [_ Hok]]]] | [st1 [e1 [Hfail Hsame]]]].
  - rewrite Hok. exists [new_record env qs r p v].
    split; [reflexivity|]. split; [simpl; lia|].
    constructor; [|constructor]. repeat split; reflexivity.
  - rewrite Hfail. exists []. cbn [fst]. rewrite Hsame, app_nil_r.
    split; [reflexivity|]. split; [simpl; lia | constructor].
Qed.

Lemma ask_record (api : result string) env q p c st :
  exists written,
    collection
      (fst (match api with
            | Ok r =>
                match index_chat env q r p (logged c st) with
                | (st', Ok _) => (st', Ok r)
                | (st', Raise e) => (st', Raise e)
                end
            | Raise e => (logged c st, Raise e)
            end))
    = (collection st ++ written)%list /\
    (List.length written <= 1)%nat /\
    Forall (fun d => q = PStr (query d) /\ provider d = p
                     /\ timestamp d = now_isoformat env) written.
Proof.
  destruct api as [r|e].
  - destruct (index_chat_record env q r p (logged c st)) as [w [Hc [Hlen Hall]]].
    exists w. split; [|split; [exact Hlen|]].
    + destruct (index_chat env q r p (logged c st)) as [st1 [[]|e1]]; exact Hc.
    + eapply Forall_impl; [|exact Hall]. intros d [Hq [Hp [_ Ht]]]. auto.
  - exists []. cbn [fst logged collection]. rewrite app_nil_r.
    split; [reflexivity|]. split; [simpl; lia | constructor].
Qed.

Lemma ask_openai_record env q st :
  exists written,
    collection (fst (ask_openai env q st)) = (collection st ++ written)%list /\
    (List.length written <= 1)%nat /\
    Forall (fun d => q = PStr (query d) /\ provider d = "openai"
                     /\ timestamp d = now_isoformat env) written.
Proof. rewrite ask_openai_run. apply ask_record. Qed.

Lemma ask_anthropic_record env q st :
  exists written,
    collection (fst (ask_anthropic env q st)) = (collection st ++ written)%list /\
    (List.length written <= 1)%nat /\
    Forall (fun d => q = PStr (query d) /\ provider d = "anthropic"
                     /\ timestamp d = now_isoformat env) written.
Proof. rewrite ask_anthropic_run. apply ask_record. Qed.

Lemma ask_google_record env q st :
  exists written,
    collection (fst (ask_google env q st)) = (collection st ++ written)%list /\
    (List.length written <= 1)%nat /\
    Forall (fun d => q = PStr (query d) /\ provider d = "google"
                     /\ timestamp d = now_isoformat env) written.
Proof. rewrite ask_google_run. apply ask_record. Qed.

Lemma fst_try_except {A} (body : M A) (handler : exn -> M A) st :
  (forall e s, fst (handler e s) = s) ->
  fst (try_except body handler st) = fst (body st).
Proof.
  intros Hh. unfold try_except.
  destruct (body st) as [st1 [a|e]]; [reflexivity | apply Hh].
Qed.

Lemma fst_bind {A B} (m : M A) (k : A -> M B) st :
  (forall a s, fst (k a s) = s) ->
  fst (bind m k st) = fst (m st).
Proof.
  intros Hk. unfold bind.
  destruct (m st) as [st1 [a|e]]; [apply Hk | reflexivity].
Qed.

Lemma fst_lift_ret {A B} (r : result A) (f : A -> B) s :
  fst (bind (lift r) (fun a => ret (f a)) s) = s.
Proof. destruct r; reflexivity. Qed.

(** X5.  Whatever the arguments, the environment and the state, [ask_llm]
    appends at most one record to the collection and changes nothing else in
    it; a record it appends has the question argument as its query, the
    provider argument, which is one of the three enumerated names, as its
    provider, and the current time as its timestamp.  In particular a
    question that is not text is never stored. *)
Theorem ask_llm_writes_at_most_one_record env arguments st :
  exists written,
    collection (fst (handle_call_tool env "ask_llm" arguments st))
      = (collection st ++ written)%list /\
    (List.length written <= 1)%nat /\
    Forall (fun d =>
              dict_get (or_empty arguments) "question" (PStr EmptyString)
                = PStr (query d) /\
              dict_get (or_empty arguments) "provider" (PStr "openai")
                = PStr (provider d) /\
              In (provider d) providers /\
              timestamp d = now_isoformat env) written.
Proof.
  rewrite handle_call_tool_ask_llm. cbv zeta.
  generalize (dict_get (or_empty arguments) "question" (PStr EmptyString)).
  generalize (dict_get (or_empty arguments) "provider" (PStr "openai")).
  intros prov question.
  assert (Hnone : forall s : State,
             exists written : list ChatRecord,
               collection s = (collection s ++ written)%list /\
               (List.length written <= 1)%nat /\
               Forall (fun d =>
                         question = PStr (query d) /\
                         prov = PStr (provider d) /\
                         In (provider d) providers /\
                         timestamp d = now_isoformat env) written).
  { intros s. exists []. rewrite app_nil_r.
    split; [reflexivity|]. split; [simpl; lia | constructor]. }
  destruct (truthy question); cbn [negb]; [|apply Hnone].
  rewrite fst_try_except by reflexivity.
  destruct prov as [| b | n | p]; cbn [eq_str]; try apply Hnone.
  destruct (String.eqb_spec p "openai") as [->|_];
    [|destruct (String.eqb_spec p "anthropic") as [->|_];
      [|destruct (String.eqb_spec p "google") as [->|_]; [|apply Hnone]]];
    (rewrite fst_bind by (intros; apply fst_lift_ret));
    [ destruct (ask_openai_record env question st) as [w [Hc [Hlen Hall]]]
    | destruct (ask_anthropic_record env question st) as [w [Hc [Hlen Hall]]]
    | destruct (ask_google_record env question st) as [w [Hc [Hlen Hall]]] ];
    exists w; (split; [exact Hc|]); (split; [exact Hlen|]);
    (eapply Forall_impl; [|exact Hall]);
    intros d [Hq [Hp Ht]]; rewrite Hp;
    (split; [exact Hq|]); (split; [reflexivity|]);
    (split; [simpl; auto | exact Ht]).
Qed.

(* ================================================================== *)
(** ** What the requests other than [ask] leave untouched *)

Lemma unknown_tool_state env name arguments st :
  ~ In name handle_list_tools ->
  fst (handle_call_tool env name arguments st) = st.
Proof.
  intros Hout. unfold handle_call_tool.
  destruct (String.eqb_spec name "search_chat_history") as [->|_];
    [exfalso; apply Hout; simpl; auto|].
  destruct (String.eqb_spec name "ask_llm") as [->|_];
    [exfalso; apply Hout; simpl; auto|].
  destruct (String.eqb_spec name "get_chat_stats") as [->|_];
    [exfalso; apply Hout; simpl; auto|].
  reflexivity.
Qed.

Lemma writes_none {A} (m : M A) st :
  writes (fun _ => False) m -> collection (fst (m st)) = collection st.
Proof.
  intros Hm. destruct (Hm st) as [w [Hc Hall]].
  destruct w as [|d w]; [now rewrite app_nil_r in Hc|].
  inversion Hall as [|? ? Hd _]. contradiction.
Qed.

Lemma writes_search_chat_history P env arguments :
  writes P (handle_call_tool env "search_chat_history" arguments).
Proof.
  unfold handle_call_tool. cbv zeta.
  change (String.eqb "search_chat_history" "search_chat_history") with true.
  cbv iota.
  apply writes_bind; [apply writes_search_similar_chats|].
  intros [|chat rest]; [apply writes_ret|].
  apply writes_bind; [apply writes_lift | intros; apply writes_ret].
Qed.

Lemma writes_get_chat_stats P env arguments :
  writes P (handle_call_tool env "get_chat_stats" arguments).
Proof.
  unfold handle_call_tool. cbv zeta.
  change (String.eqb "get_chat_stats" "search_chat_history") with false.
  change (String.eqb "get_chat_stats" "ask_llm") with false.
  change (String.eqb "get_chat_stats" "get_chat_stats") with true.
  cbv iota.
  apply writes_try_except; [|intros; apply writes_ret].
  apply writes_bind; [apply writes_es_aggregate | intros; apply writes_ret].
Qed.

Lemma writes_read_resource P env uri : writes P (handle_read_resource env uri).
Proof.
  unfold handle_read_resource. destruct (String.eqb uri "chat://history").
  - apply writes_bind; [apply writes_search_similar_chats | intros; apply writes_ret].
  - apply writes_raise.
Qed.

(** X6.  Every request other than an [ask] ([search_chat_history],
    [get_chat_stats], an unknown tool, the reading of a resource, the search
    method) leaves the collection exactly as it was, whether it returns or
    raises. *)
Theorem read_only_requests_keep_collection env r st :
  read_only r -> collection (serve env r st) = collection st.
Proof.
  destruct r as [name arguments | uri | q | q | q | query size];
    cbn [read_only serve]; intros Hro; try contradiction.
  - destruct (String.eqb_spec name "search_chat_history") as [->|Hs].
    { apply writes_none, writes_search_chat_history. }
    destruct (String.eqb_spec name "get_chat_stats") as [->|Hg].
    { apply writes_none, writes_get_chat_stats. }
    rewrite unknown_tool_state; [reflexivity|].
    simpl. intros [H|[H|[H|[]]]]; congruence.
  - apply writes_none, writes_read_resource.
  - apply writes_none, writes_search_similar_chats.
Qed.

Lemma read_only_requests_keep_collection_witness :
  collection (serve env_up (CallTool "get_chat_stats" None) sample_state)
  = collection sample_state.
Proof.
  apply (@read_only_requests_keep_collection env_up
           (CallTool "get_chat_stats" None) sample_state).
  simpl. discriminate.
Defined.

(** X7.  Reading a resource under any identifier other than
    [chat://history] raises [ValueError] naming the identifier; no call is
    made and the state is untouched. *)
Theorem unknown_resource_is_hard_failure env uri st :
  uri <> "chat://history" ->
  handle_read_resource env uri st =
  (st, Raise (Exn "ValueError" ("Unknown resource: " ++ uri))).
Proof.
  intros Huri. unfold handle_read_resource.
  destruct (String.eqb_spec uri "chat://history"); [contradiction | reflexivity].
Qed.

Lemma unknown_resource_is_hard_failure_witness :
  handle_read_resource env_up "chat://stats" sample_state =
  (sample_state, Raise (Exn "ValueError" "Unknown resource: chat://stats")).
Proof.
  apply (@unknown_resource_is_hard_failure env_up "chat://stats" sample_state).
  discriminate.
Defined.

(* ================================================================== *)
(** ** Further properties of the search and of its listing *)

Lemma search_similar_chats_top env q n qv st :
  (0 <= n)%Z ->
  embeddings_create env q = Ok qv ->
  es_search_error env = None ->
  Forall (scorable qv) (collection st) ->
  search_similar_chats env q (PInt n) st =
  (logged (EsSearch (search_request qv (PInt n))) (logged (EmbeddingsCreate q) st),
   Ok (map metadata (top_records qv n (collection st)))).
Proof.
  intros Hn Hemb Hup Hsc.
  rewrite search_similar_chats_run, Hemb.
  rewrite (@es_search_run env qv n (logged (EmbeddingsCreate q) st) Hn Hup Hsc).
  cbn [collection logged]. unfold top_records. rewrite !map_map. reflexivity.
Qed.

Lemma top_records_length qv n docs :
  (List.length (top_records qv n docs) <= Z.to_nat n)%nat /\
  (List.length (top_records qv n docs) <= List.length docs)%nat.
Proof.
  unfold top_records. rewrite length_map, length_firstn.
  rewrite (Permutation_length (sort_desc_perm _)), length_map. lia.
Qed.

Lemma top_records_incl qv n docs d :
  In d (top_records qv n docs) -> In d docs.
Proof.
  unfold top_records. intros Hd.
  apply in_map_iff in Hd as [sd [<- Hsd]].
  assert (Hin : In sd (Es.sort_desc (map (fun d => (score_of qv d, d)) docs))).
  { rewrite <- (firstn_skipn (Z.to_nat n)). apply in_or_app. now left. }
  clear Hsd. rename Hin into Hsd.
  apply (Permutation_in _ (sort_desc_perm _)) in Hsd.
  apply in_map_iff in Hsd as [d' [<- Hd']]. exact Hd'.
Qed.

Lemma top_records_all qv n docs :
  (List.length docs <= Z.to_nat n)%nat ->
  Permutation (top_records qv n docs) docs.
Proof.
  intros Hall. unfold top_records.
  rewrite firstn_all2.
  - rewrite (Permutation_map snd (sort_desc_perm _)), map_map. cbn [snd].
    now rewrite map_id.
  - rewrite (Permutation_length (sort_desc_perm _)), length_map. exact Hall.
Qed.

Lemma render_chat_metadata env i d acc :
  render_chat env i (metadata d) acc = Ok (acc ++ listing_entry i d).
Proof.
  unfold render_chat, and_then, listing_entry.
  change (dict_item (metadata d) "provider") with (Ok (VStr (provider d))).
  change (dict_item (metadata d) "timestamp") with (Ok (VStr (timestamp d))).
  change (dict_item (metadata d) "query") with (Ok (VStr (query d))).
  change (dict_item (metadata d) "response") with (Ok (VStr (response d))).
  cbn [value_upper value_format value_slice value_len].
  now rewrite !string_app_assoc.
Qed.

Lemma render_loop_metadata env ds :
  forall i acc,
    render_loop env i (map metadata ds) acc = Ok (acc ++ listing i ds).
Proof.
  induction ds as [|d ds IH]; intros i acc; cbn [map render_loop listing].
  - now rewrite string_app_empty_r.
  - rewrite render_chat_metadata. cbn [and_then].
    now rewrite IH, string_app_assoc.
Qed.

Lemma search_chat_history_run env arguments st n qv :
  dict_get (or_empty arguments) "limit" (PInt 5) = PInt n ->
  (0 <= n)%Z ->
  embeddings_create env (dict_get (or_empty arguments) "query" (PStr EmptyString))
    = Ok qv ->
  es_search_error env = None ->
  Forall (scorable qv) (collection st) ->
  handle_call_tool env "search_chat_history" arguments st =
  (logged (EsSearch (search_request qv (PInt n)))
     (logged (EmbeddingsCreate
                (dict_get (or_empty arguments) "query" (PStr EmptyString))) st),
   Ok (text_content
         match top_records qv n (collection st) with
         | [] => "No similar conversations found."
         | _ :: _ =>
             "Found " ++ str_of_nat (List.length (top_records qv n (collection st)))
               ++ " similar conversations:" ++ nl ++ nl
               ++ listing 1 (top_records qv n (collection st))
         end)).
Proof.
  intros Hlimit Hn Hemb Hup Hsc.
  unfold handle_call_tool. cbv zeta.
  change (String.eqb "search_chat_history" "search_chat_history") with true.
  cbv iota. rewrite Hlimit. unfold bind at 1.
  rewrite (@search_similar_chats_top env _ n qv st Hn Hemb Hup Hsc).
  destruct (top_records qv n (collection st)) as [|d top]; [reflexivity|].
  change (map metadata (d :: top)) with (metadata d :: map metadata top).
  cbv iota.
  change (metadata d :: map metadata top) with (map metadata (d :: top)).
  unfold bind, lift. rewrite render_loop_metadata, length_map.
  unfold ret. now rewrite !string_app_assoc.
Qed.

(** X8.  When the embedding of the query is obtained, the store answers and
    every stored record can be scored, [search_chat_history] never fails in
    rendering: it returns the fixed message when no record is selected, and
    otherwise a heading with the number of selected records followed by one
    entry of three lines per record, numbered from 1 in rank order.  A
    missing [limit] stands for 5 and a missing [query] for the empty text. *)
Theorem search_chat_history_lists_top_records env arguments st n qv :
  dict_get (or_empty arguments) "limit" (PInt 5) = PInt n ->
  (0 <= n)%Z ->
  embeddings_create env (dict_get (or_empty arguments) "query" (PStr EmptyString))
    = Ok qv ->
  es_search_error env = None ->
  Forall (scorable qv) (collection st) ->
  snd (handle_call_tool env "search_chat_history" arguments st) =
  Ok (text_content
        match top_records qv n (collection st) with
        | [] => "No similar conversations found."
        | _ :: _ =>
            "Found " ++ str_of_nat (List.length (top_records qv n (collection st)))
              ++ " similar conversations:" ++ nl ++ nl
              ++ listing 1 (top_records qv n (collection st))
        end).
Proof.
  intros Hlimit Hn Hemb Hup Hsc.
  now rewrite (@search_chat_history_run env arguments st n qv Hlimit Hn Hemb Hup Hsc).
Qed.

Lemma search_chat_history_lists_top_records_witness :
  snd (handle_call_tool env_up "search_chat_history" None sample_state) =
  Ok (text_content
        match top_records [1%R; 0%R] 5 (collection sample_state) with
        | [] => "No similar conversations found."
        | _ :: _ =>
            "Found "
              ++ str_of_nat
                   (List.length (top_records [1%R; 0%R] 5 (collection sample_state)))
              ++ " similar conversations:" ++ nl ++ nl
              ++ listing 1 (top_records [1%R; 0%R] 5 (collection sample_state))
        end).
Proof.
  apply (@search_chat_history_lists_top_records env_up None sample_state 5%Z
           [1%R; 0%R]).
  - reflexivity.
  - lia.
  - reflexivity.
  - reflexivity.
  - constructor; [exact scorable_sample_record|].
    constructor; [exact scorable_long_record | constructor].
Defined.

(** X9.  With a limit of 0 or an empty collection, [search_chat_history]
    answers [No similar conversations found.] (the embedding of the query
    being obtained and the store answering). *)
Theorem search_chat_history_nothing_to_list env arguments st n qv :
  dict_get (or_empty arguments) "limit" (PInt 5) = PInt n ->
  (0 <= n)%Z ->
  embeddings_create env (dict_get (or_empty arguments) "query" (PStr EmptyString))
    = Ok qv ->
  es_search_error env = None ->
  Forall (scorable qv) (collection st) ->
  n = 0%Z \/ collection st = [] ->
  snd (handle_call_tool env "search_chat_history" arguments st) =
  Ok (text_content "No similar conversations found.").
Proof.
  intros Hlimit Hn Hemb Hup Hsc Hnone.
  rewrite (@search_chat_history_run env arguments st n qv Hlimit Hn Hemb Hup Hsc).
  assert (Hempty : top_records qv n (collection st) = []).
  { destruct Hnone as [-> | ->]; unfold top_records.
    - reflexivity.
    - cbn [map Es.sort_desc]. now rewrite firstn_nil. }
  now rewrite Hempty.
Qed.

Lemma search_chat_history_nothing_to_list_witness :
  snd (handle_call_tool env_up "search_chat_history"
         (Some [ ("query", PStr "ingest pipeline") ]) empty_state) =
  Ok (text_content "No similar conversations found.").
Proof.
  apply (@search_chat_history_nothing_to_list env_up
           (Some [ ("query", PStr "ingest pipeline") ]) empty_state 5%Z
           [1%R; 0%R]).
  - reflexivity.
  - lia.
  - reflexivity.
  - reflexivity.
  - constructor.
  - right. reflexivity.
Defined.

(** X10.  Reading the resource [chat://history] embeds the empty query and
    searches with limit 10: when both calls succeed, the text returned is
    the JSON rendering of the metadata of at most ten records, all of them
    from the collection, and of every record when the collection holds ten or
    fewer. *)
Theorem read_resource_returns_at_most_ten env st qv :
  embeddings_create env (PStr EmptyString) = Ok qv ->
  es_search_error env = None ->
  Forall (scorable qv) (collection st) ->
  exists top,
    handle_read_resource env "chat://history" st =
      (logged (EsSearch (search_request qv (PInt 10)))
         (logged (EmbeddingsCreate (PStr EmptyString)) st),
       Ok (json_dumps env (map metadata top))) /\
    (List.length top <= 10)%nat /\
    (forall d, In d top -> In d (collection st)) /\
    ((List.length (collection st) <= 10)%nat -> Permutation top (collection st)).
Proof.
  intros Hemb Hup Hsc.
  exists (top_records qv 10 (collection st)). repeat split.
  - unfold handle_read_resource.
    change (String.eqb "chat://history" "chat://history") with true. cbv iota.
    unfold bind.
    rewrite (@search_similar_chats_top env (PStr EmptyString) 10%Z qv st);
      [reflexivity | lia | exact Hemb | exact Hup | exact Hsc].
  - apply (top_records_length qv 10 (collection st)).
  - apply top_records_incl.
  - intros Hall. apply top_records_all. exact Hall.
Qed.

Lemma read_resource_returns_at_most_ten_witness :
  exists top,
    handle_read_resource env_up "chat://history" sample_state =
      (logged (EsSearch (search_request [1%R; 0%R] (PInt 10)))
         (logged (EmbeddingsCreate (PStr EmptyString)) sample_state),
       Ok (json_dumps env_up (map metadata top))) /\
    (List.length top <= 10)%nat /\
    (forall d, In d top -> In d (collection sample_state)) /\
    ((List.length (collection sample_state) <= 10)%nat ->
     Permutation top (collection sample_state)).
Proof.
  apply (@read_resource_returns_at_most_ten env_up sample_state [1%R; 0%R]).
  - reflexivity.
  - reflexivity.
  - constructor; [exact scorable_sample_record|].
    constructor; [exact scorable_long_record | constructor].
Defined.

Lemma scorable_new_record env q r p :
  scorable [1%R; 0%R] (new_record env q r p [1%R; 0%R]).
Proof.
  split; [reflexivity|]. cbn [new_record embedding].
  rewrite norm_unit_x. lra.
Qed.

(** X11.  A record that [index_chat] has just written is found by a search
    whose limit exceeds the number of records stored before: its metadata is
    among the results, whatever the query (the embedding of the query being
    obtained, the store answering and every record being scorable). *)
Theorem indexed_record_is_found env env' q r p v st query qv n :
  embeddings_create env (PStr ((q ++ nl) ++ r)) = Ok v ->
  es_index_error env (new_record env q r p v) = None ->
  embeddings_create env' query = Ok qv ->
  es_search_error env' = None ->
  Forall (scorable qv) (collection st) ->
  scorable qv (new_record env q r p v) ->
  (List.length (collection st) < Z.to_nat n)%nat ->
  exists results,
    snd (search_similar_chats env' query (PInt n)
           (fst (index_chat env (PStr q) r p st))) = Ok results /\
    In (metadata (new_record env q r p v)) results.
Proof.
  intros Hemb Hes Hq Hup Hsc Hnew Hn.
  rewrite index_chat_str, Hemb, Hes. cbn [fst].
  set (st' := {| collection := collection st ++ [new_record env q r p v];
                 calls := calls st ++ [ EmbeddingsCreate (PStr ((q ++ nl) ++ r));
                                        EsIndex (new_record env q r p v) ] |}).
  assert (Hsc' : Forall (scorable qv) (collection st')).
  { cbn [st' collection]. apply Forall_app. split; [exact Hsc|].
    constructor; [exact Hnew | constructor]. }
  rewrite (@search_similar_chats_top env' query n qv st'); [|lia|exact Hq|exact Hup|exact Hsc'].
  assert (Hlen : (List.length (collection st') <= Z.to_nat n)%nat).
  { cbn [st' collection]. rewrite length_app. simpl. lia. }
  eexists. split; [reflexivity|].
  apply in_map.
  apply (Permutation_in _ (Permutation_sym (@top_records_all qv n (collection st') Hlen))).
  cbn [st' collection]. apply in_or_app. right. now left.
Qed.

Lemma indexed_record_is_found_witness :
  exists results,
    snd (search_similar_chats env_up (PStr "something else") (PInt 5)
           (fst (index_chat env_up (PStr "2+2?") "4" "openai" sample_state)))
      = Ok results /\
    In (metadata (new_record env_up "2+2?" "4" "openai" [1%R; 0%R])) results.
Proof.
  apply (@indexed_record_is_found env_up env_up "2+2?" "4" "openai" [1%R; 0%R]
           sample_state (PStr "something else") [1%R; 0%R] 5%Z).
  - reflexivity.
  - reflexivity.
  - reflexivity.
  - reflexivity.
  - constructor; [exact scorable_sample_record|].
    constructor; [exact scorable_long_record | constructor].
  - apply scorable_new_record.
  - simpl. lia.
Defined.

(* ================================================================== *)
(** ** Further properties of [get_chat_stats] *)

Lemma stats_lines_from acc bs :
  fold_left stats_line bs acc = acc ++ fold_left stats_line bs EmptyString.
Proof.
  revert acc. induction bs as [|b bs IH]; intros acc; cbn [fold_left].
  - now rewrite string_app_empty_r.
  - rewrite (IH (stats_line acc b)), (IH (stats_line EmptyString b)).
    unfold stats_line. now rewrite !string_app_assoc.
Qed.

Lemma stats_lines_provider_lines bs :
  forall acc, fold_left stats_line bs acc = acc ++ provider_lines bs.
Proof.
  induction bs as [|b bs IH]; intros acc; cbn [fold_left provider_lines].
  - now rewrite string_app_empty_r.
  - rewrite IH. unfold stats_line, provider_line.
    now rewrite !string_app_assoc.
Qed.

Lemma bucket_of_bump key bs p :
  bucket_of (Es.bump key bs) p =
  if String.eqb key p then S (bucket_of bs p) else bucket_of bs p.
Proof.
  induction bs as [|[k n] bs IH]; cbn [Es.bump bucket_of].
  - destruct (String.eqb key p); reflexivity.
  - destruct (String.eqb_spec k key) as [->|Hk]; cbn [bucket_of].
    + destruct (String.eqb key p); reflexivity.
    + destruct (String.eqb_spec k p) as [->|Hp]; [|exact IH].
      destruct (String.eqb_spec key p) as [->|_]; [contradiction | reflexivity].
Qed.

Lemma bucket_of_fold p docs :
  forall bs,
    bucket_of (fold_left (fun bs d => Es.bump (provider d) bs) docs bs) p
    = (bucket_of bs p + count_provider p docs)%nat.
Proof.
  unfold count_provider.
  induction docs as [|d docs IH]; intros bs; cbn [fold_left filter].
  - cbn. lia.
  - rewrite IH, bucket_of_bump.
    destruct (String.eqb (provider d) p); cbn [List.length]; lia.
Qed.

Lemma keys_bump key bs :
  map fst (Es.bump key bs) = map fst bs
  \/ (~ In key (map fst bs) /\ map fst (Es.bump key bs) = (map fst bs ++ [key])%list).
Proof.
  induction bs as [|[k n] bs IH]; cbn [Es.bump map fst].
  - right. split; [intros [] | reflexivity].
  - destruct (String.eqb_spec k key) as [->|Hk]; cbn [map fst]; [now left|].
    destruct IH as [IH | [Hout IH]].
    + left. now rewrite IH.
    + right. split; [|now rewrite IH].
      cbn [In]. intros [H|H]; [contradiction | exact (Hout H)].
Qed.

Lemma positive_bump key bs :
  Forall (fun b : string * nat => (0 < snd b)%nat) bs ->
  Forall (fun b : string * nat => (0 < snd b)%nat) (Es.bump key bs).
Proof.
  induction 1 as [|[k n] bs Hb Hbs IH]; cbn [Es.bump].
  - constructor; [cbn; lia | constructor].
  - destruct (String.eqb k key); constructor; auto. cbn. lia.
Qed.

Lemma buckets_invariant docs :
  forall bs,
    NoDup (map fst bs) ->
    Forall (fun b : string * nat => (0 < snd b)%nat) bs ->
    NoDup (map fst (fold_left (fun bs d => Es.bump (provider d) bs) docs bs)) /\
    Forall (fun b : string * nat => (0 < snd b)%nat)
      (fold_left (fun bs d => Es.bump (provider d) bs) docs bs).
Proof.
  induction docs as [|d docs IH]; intros bs Hnd Hpos; cbn [fold_left];
    [now split|].
  apply IH; [|now apply positive_bump].
  destruct (keys_bump (provider d) bs) as [-> | [Hout ->]]; [exact Hnd|].
  apply NoDup_app; repeat split; auto.
  - repeat constructor. intros [].
  - intros x Hx [<-|[]]. contradiction.
Qed.

Lemma bucket_of_unique bs p k :
  NoDup (map fst bs) -> In (p, k) bs -> bucket_of bs p = k.
Proof.
  induction bs as [|[k0 n] bs IH]; cbn [map fst bucket_of]; intros Hnd Hin;
    [contradiction|].
  inversion Hnd as [|? ? Hout Hnd']; subst.
  destruct Hin as [Heq | Hin].
  - injection Heq as -> ->. now rewrite String.eqb_refl.
  - destruct (String.eqb_spec k0 p) as [->|_]; [|now apply IH].
    exfalso. apply Hout. apply in_map_iff. exists (p, k). now split.
Qed.

Lemma bucket_of_member bs p :
  (0 < bucket_of bs p)%nat -> In (p, bucket_of bs p) bs.
Proof.
  induction bs as [|[k n] bs IH]; cbn [bucket_of]; intros Hpos; [lia|].
  destruct (String.eqb_spec k p) as [->|_]; [now left | right; now apply IH].
Qed.

(** X12.  [get_chat_stats] ignores its arguments.  When the store answers,
    the text it returns is the heading, the line
    [Total conversations: <number of stored records>], the second heading
    and one line [- <PROVIDER>: <count>] for each bucket the store reports;
    when the store fails, the text is [Error getting stats: <error>].  The
    buckets are one per provider that occurs in the collection, each with the
    number of records of that provider. *)
Theorem get_chat_stats_text env arguments st :
  snd (handle_call_tool env "get_chat_stats" arguments st) =
  Ok (text_content
        match es_search_error env with
        | None =>
            "**Chat History Statistics:**" ++ nl ++ nl
              ++ "Total conversations: "
              ++ str_of_nat (List.length (collection st)) ++ nl ++ nl
              ++ "**By Provider:**" ++ nl
              ++ provider_lines (provider_buckets (collection st))
        | Some e => "Error getting stats: " ++ exn_msg e
        end) /\
  NoDup (map fst (provider_buckets (collection st))) /\
  (forall p k,
      In (p, k) (provider_buckets (collection st)) <->
      k = count_provider p (collection st) /\ (0 < k)%nat).
Proof.
  split; [|split].
  - unfold handle_call_tool. cbv zeta.
    change (String.eqb "get_chat_stats" "search_chat_history") with false.
    change (String.eqb "get_chat_stats" "ask_llm") with false.
    change (String.eqb "get_chat_stats" "get_chat_stats") with true.
    cbv iota.
    unfold try_except, bind at 1, Es.aggregate, bind, record_call.
    destruct (es_search_error env) as [e|]; [reflexivity|].
    cbn [collection total_value buckets]. unfold ret. cbn [snd].
    rewrite stats_lines_provider_lines. fold (provider_buckets (collection st)).
    now rewrite !string_app_assoc.
  - apply (@buckets_invariant (collection st) []); constructor.
  - intros p k.
    destruct (@buckets_invariant (collection st) []) as [Hnd Hpos];
      [constructor | constructor |].
    fold (provider_buckets (collection st)) in Hnd, Hpos.
    assert (Hcount : bucket_of (provider_buckets (collection st)) p
                     = count_provider p (collection st)).
    { unfold provider_buckets. now rewrite bucket_of_fold. }
    split.
    + intros Hin. split.
      * rewrite <- Hcount. symmetry. now apply bucket_of_unique.
      * rewrite Forall_forall in Hpos. exact (Hpos (p, k) Hin).
    + intros [-> Hk]. rewrite <- Hcount in *. now apply bucket_of_member.
Qed.

(* ================================================================== *)
(** ** The creation of the index *)

Lemma index_mapping_app (ix : indices) name m other :
  index_mapping (ix ++ [(name, m)])%list other =
  match index_mapping ix other with
  | Some m' => Some m'
  | None => if String.eqb name other then Some m else None
  end.
Proof.
  induction ix as [|[k m0] ix IH]; cbn [app index_mapping]; [reflexivity|].
  destruct (String.eqb k other); [reflexivity | exact IH].
Qed.

(** X13.  With the store answering, constructing the manager never raises;
    afterwards the index [chat_history] is there, with the five-field
    mapping if it had to be created; every index that was there before,
    [chat_history] included, keeps the mapping it had; and constructing a
    second manager changes nothing. *)
Theorem manager_init_creates_index_once ix :
  exists ix',
    __init__ None ix = (ix', Ok tt) /\
    (index_mapping ix "chat_history" = None ->
     index_mapping ix' "chat_history" = Some chat_history_mapping) /\
    (forall other m,
        index_mapping ix other = Some m -> index_mapping ix' other = Some m) /\
    __init__ None ix' = (ix', Ok tt).
Proof.
  unfold __init__, _ensure_index_exists, indices_exists, indices_create.
  cbv zeta.
  destruct (index_mapping ix "chat_history") as [m0|] eqn:Hix.
  - exists ix. repeat split.
    + discriminate.
    + auto.
    + now rewrite Hix.
  - exists (ix ++ [("chat_history", chat_history_mapping)])%list. repeat split.
    + intros _. rewrite index_mapping_app, Hix. reflexivity.
    + intros other m Hother. now rewrite index_mapping_app, Hother.
    + rewrite index_mapping_app, Hix. reflexivity.
Qed.

(* ================================================================== *)
(** ** [setup.py]: the environment file *)

Lemma read_filter_other fs path other :
  other <> path ->
  Setup.read (filter (fun kv => negb (String.eqb (fst kv) other)) fs) path
  = Setup.read fs path.
Proof.
  intros Hne. induction fs as [|[k c] fs IH]; [reflexivity|].
  cbn [filter fst Setup.read].
  destruct (String.eqb_spec k other) as [->|Hk]; cbn [negb Setup.read].
  - destruct (String.eqb_spec other path); [contradiction | exact IH].
  - destruct (String.eqb k path); [reflexivity | exact IH].
Qed.

Lemma read_write fs path content other :
  Setup.read (Setup.write fs path content) other =
  if String.eqb path other then Some content else Setup.read fs other.
Proof.
  unfold Setup.write. cbn [Setup.read].
  destruct (String.eqb_spec path other) as [->|Hne]; [reflexivity|].
  now apply read_filter_other.
Qed.

(** X14.  [setup_env_file] never loses or alters a file: whatever path holds
    a content beforehand, the environment file included, holds the same
    content afterwards. *)
Theorem setup_env_file_keeps_existing_files w fs path content :
  Setup.read fs path = Some content ->
  Setup.read (fst (fst (Setup.setup_env_file w fs))) path = Some content.
Proof.
  intros Hread. unfold Setup.setup_env_file, Setup.path_exists. cbv zeta.
  destruct (Setup.read fs ".env") as [c0|] eqn:Henv; [exact Hread|].
  assert (Hother : forall c, Setup.read (Setup.write fs ".env" c) path = Some content).
  { intros c. rewrite read_write.
    destruct (String.eqb_spec ".env" path) as [<-|_]; [|exact Hread].
    rewrite Henv in Hread. discriminate Hread. }
  destruct (Setup.read fs ".env.example") as [example|]; [|exact Hread].
  destruct (Setup.read_error w) as [e|]; [exact Hread|].
  destruct (Setup.write_error w) as [[e [partial|]]|]; cbn [fst];
    [apply Hother | exact Hread | apply Hother].
Qed.

Lemma setup_env_file_keeps_existing_files_witness :
  Setup.read (fst (fst (Setup.setup_env_file io_ok fresh_checkout)))
    "requirements.txt"
  = Some "openai".
Proof.
  apply (@setup_env_file_keeps_existing_files io_ok fresh_checkout
           "requirements.txt" "openai").
  reflexivity.
Defined.





(** An example file that cannot be decoded: the function raises, and the
    environment file is not created. *)
Example setup_env_file_unreadable_example :
  Setup.setup_env_file io_unreadable fresh_checkout =
  (fresh_checkout, [ "📝 Creating .env file from .env.example" ],
   Raise (Exn "UnicodeDecodeError" "invalid start byte")).
Proof. reflexivity. Qed.


(* ================================================================== *)
(** ** [chat_history.py] run as a program *)

Lemma print_chat_metadata env i d printed :
  print_chat env i (metadata d) printed =
  ((printed
      ++ [ (str_of_nat i ++ ". [" ++ provider d ++ "] "
              ++ slice_to 50 (query d) ++ "...")%string;
           ("   " ++ slice_to 100 (response d) ++ "...")%string;
           EmptyString ])%list,
   Ok tt).
Proof.
  unfold print_chat.
  change (dict_item (metadata d) "provider") with (Ok (VStr (provider d))).
  change (dict_item (metadata d) "query") with (Ok (VStr (query d))).
  change (dict_item (metadata d) "response") with (Ok (VStr (response d))).
  cbn [value_format value_slice]. now rewrite <- app_assoc.
Qed.

Lemma print_similar_metadata env ds :
  forall i printed,
    print_similar env i (map metadata ds) printed
    = ((printed ++ preview_lines i ds)%list, Ok tt).
Proof.
  induction ds as [|d ds IH]; intros i printed; cbn [map print_similar preview_lines].
  - now rewrite app_nil_r.
  - rewrite print_chat_metadata, IH, <- app_assoc. reflexivity.
Qed.

(** X18.  A run of the script appends at most one record to the collection,
    however it ends; a record it appends is the [openai] record of the fixed
    question. *)
Theorem chat_history_main_writes_at_most_one_record env st :
  exists written,
    collection (fst (fst (chat_history_main env st)))
      = (collection st ++ written)%list /\
    (List.length written <= 1)%nat /\
    Forall (fun d => query d = demo_question /\ provider d = "openai") written.
Proof.
  unfold chat_history_main. cbv zeta.
  destruct (ask_openai_record env (PStr demo_question) st) as [w [Hc [Hlen Hall]]].
  exists w. split; [|split; [exact Hlen|]].
  - fold demo_question.
    destruct (ask_openai env (PStr demo_question) st) as [st1 [answer|e]];
      cbn [fst] in *; [|exact Hc].
    pose proof (@writes_none _ (search_similar_chats env (PStr demo_question) (PInt 3))
                  st1 (writes_search_similar_chats _ env _ _)) as Hsame.
    destruct (search_similar_chats env (PStr demo_question) (PInt 3) st1)
      as [st2 [similar|e]]; cbn [fst] in *.
    + destruct (print_similar env 1 similar _) as [printed' outcome].
      cbn [fst]. now rewrite Hsame.
    + now rewrite Hsame.
  - eapply Forall_impl; [|exact Hall].
    intros d [Hq [Hp _]]. injection Hq as Hq. split; [now rewrite <- Hq | exact Hp].
Qed.

(** X19.  When every call succeeds, the script prints the question, the
    answer under its heading, and under the second heading three lines for
    each of the at most three records selected from the collection with the
    new record in it: the query cut to 50 characters and the response to 100,
    each followed by [...] whether or not anything was cut, and an empty
    line. *)
Theorem chat_history_main_prints_previews env st answer v qv :
  openai_chat env (PStr demo_question) = Ok answer ->
  embeddings_create env (PStr ((demo_question ++ nl) ++ answer)) = Ok v ->
  es_index_error env (new_record env demo_question answer "openai" v) = None ->
  embeddings_create env (PStr demo_question) = Ok qv ->
  es_search_error env = None ->
  Forall (scorable qv)
    (collection st ++ [new_record env demo_question answer "openai" v]) ->
  snd (fst (chat_history_main env st)) =
    ([ ("Question: " ++ demo_question)%string;
       (nl ++ "--- OpenAI Response ---")%string;
       answer;
       (nl ++ "--- Similar Past Conversations ---")%string ]
       ++ preview_lines 1
            (top_records qv 3
               (collection st ++ [new_record env demo_question answer "openai" v])))%list /\
  snd (chat_history_main env st) = Ok tt.
Proof.
  intros Hans Hemb Hes Hq Hup Hsc.
  unfold chat_history_main. cbv zeta. fold demo_question.
  rewrite ask_openai_run, Hans, index_chat_str, Hemb, Hes.
  cbn [logged collection calls].
  match goal with
  | |- context [search_similar_chats env (PStr demo_question) (PInt 3) ?s] =>
      rewrite (@search_similar_chats_top env (PStr demo_question) 3%Z qv s);
        [|lia | exact Hq | exact Hup | exact Hsc]
  end.
  cbn [collection]. rewrite print_similar_metadata. cbn [fst snd].
  split; reflexivity.
Qed.

Lemma chat_history_main_prints_previews_witness :
  snd (fst (chat_history_main env_up empty_state)) =
    ([ ("Question: " ++ demo_question)%string;
       (nl ++ "--- OpenAI Response ---")%string;
       "4";
       (nl ++ "--- Similar Past Conversations ---")%string ]
       ++ preview_lines 1
            (top_records [1%R; 0%R] 3
               (collection empty_state
                  ++ [new_record env_up demo_question "4" "openai" [1%R; 0%R]])))%list /\
  snd (chat_history_main env_up empty_state) = Ok tt.
Proof.
  apply (@chat_history_main_prints_previews env_up empty_state "4" [1%R; 0%R]
           [1%R; 0%R]).
  - reflexivity.
  - reflexivity.
  - reflexivity.
  - reflexivity.
  - reflexivity.
  - constructor; [apply scorable_new_record | constructor].
Defined.

(* ================================================================== *)
(** ** Errors of the search *)

(** X20.  When the embedding of the query cannot be obtained,
    [search_chat_history] raises that very exception to the host: the store
    is not queried (the embedding request is the only call made) and no text
    is returned. *)
Theorem search_chat_history_stops_at_embedding_failure env arguments st e :
  embeddings_create env (dict_get (or_empty arguments) "query" (PStr EmptyString))
    = Raise e ->
  handle_call_tool env "search_chat_history" arguments st =
  (logged (EmbeddingsCreate
             (dict_get (or_empty arguments) "query" (PStr EmptyString))) st,
   Raise e).
Proof.
  intros Hemb. unfold handle_call_tool. cbv zeta.
  change (String.eqb "search_chat_history" "search_chat_history") with true.
  cbv iota. unfold bind at 1.
  now rewrite search_similar_chats_run, Hemb.
Qed.

Lemma search_chat_history_stops_at_embedding_failure_witness :
  handle_call_tool env_embedding_down "search_chat_history" None sample_state =
  (logged (EmbeddingsCreate (PStr EmptyString)) sample_state,
   Raise (Exn "APIConnectionError" "Connection error.")).
Proof.
  apply (@search_chat_history_stops_at_embedding_failure env_embedding_down None
           sample_state (Exn "APIConnectionError" "Connection error.")).
  reflexivity.
Defined.

(* ================================================================== *)
(** ** [ask_llm] and the host *)

(** X21.  Whatever the arguments, the environment and the state, [ask_llm]
    hands the host one text block and never an exception: a missing or
    empty question, an unknown provider, a failing provider, a failing
    embedding request and a failing write all end in text. *)
Theorem ask_llm_never_raises env arguments st :
  exists t,
    snd (handle_call_tool env "ask_llm" arguments st) = Ok (text_content t).
Proof.
  destruct (ask_llm_always_text env arguments st) as [st' [t Hrun]].
  exists t. now rewrite Hrun.
Qed.

(* ================================================================== *)
(** ** The score that [search_similar_chats] asks for *)

Lemma es_search_state env body st :
  fst (Es.search env body st) = logged (EsSearch body) st.
Proof.
  unfold Es.search, bind, record_call, logged. cbn [fst snd].
  destruct (es_search_error env); [reflexivity|].
  destruct (body_size body); try reflexivity.
  destruct (n <? 0)%Z; [reflexivity|].
  destruct (Es.score_all body _); reflexivity.
Qed.

Lemma search_similar_chats_calls env q size st qv :
  embeddings_create env q = Ok qv ->
  calls (fst (search_similar_chats env q size st))
  = (calls st ++ [ EmbeddingsCreate q; EsSearch (search_request qv size) ])%list.
Proof.
  intros Hemb. rewrite search_similar_chats_run, Hemb.
  pose proof (es_search_state env (search_request qv size)
                (logged (EmbeddingsCreate q) st)) as Hst.
  destruct (Es.search env (search_request qv size)
              (logged (EmbeddingsCreate q) st)) as [st' [hits|e]];
    cbn [fst] in *; subst st'; cbn [calls logged]; now rewrite <- app_assoc.
Qed.

Lemma script_score_search_request_inv qv size d x :
  Es.script_score (search_request qv size) d = Some x ->
  scorable qv d /\ x = score_of qv d.
Proof.
  unfold Es.script_score. cbn.
  destruct (Nat.eqb_spec (List.length qv) (List.length (embedding d)))
    as [Hlen|_]; [|discriminate].
  destruct (Req_EM_T (norm qv * norm (embedding d)) 0) as [_|Hnz]; [discriminate|].
  destruct (Rlt_dec (cosine_similarity qv (embedding d) + 1) 0); [discriminate|].
  intros Hx. injection Hx as <-. split; [split; assumption | reflexivity].
Qed.

Lemma score_all_range qv size docs :
  forall scored,
    Es.score_all (search_request qv size) docs = Some scored ->
    Forall (fun sd : R * ChatRecord => (0 <= fst sd <= 2)%R) scored.
Proof.
  induction docs as [|d docs IH]; intros scored; cbn [Es.score_all].
  - intros Hs. injection Hs as <-. constructor.
  - destruct (Es.script_score (search_request qv size) d) as [x|] eqn:Hx;
      [|discriminate].
    destruct (Es.score_all (search_request qv size) docs) as [rest|];
      [|discriminate].
    intros Hs. injection Hs as <-.
    destruct (script_score_search_request_inv _ _ _ Hx) as [Hsc ->].
    constructor; [exact (@score_of_range qv d Hsc) | now apply IH].
Qed.

Lemma es_search_hits_range env qv size st st' hits :
  Es.search env (search_request qv size) st = (st', Ok hits) ->
  Forall (fun h => (0 <= hit_score h <= 2)%R) hits.
Proof.
  unfold Es.search, bind, record_call. cbn [body_size search_request collection].
  destruct (es_search_error env); [discriminate|].
  destruct size as [| b | n | s]; try discriminate.
  destruct (n <? 0)%Z; [discriminate|].
  destruct (Es.score_all _ (collection st)) as [scored|] eqn:Hscored;
    [|discriminate].
  intros Hrun. injection Hrun as _ <-.
  apply score_all_range in Hscored.
  apply Forall_forall. intros h Hh.
  apply in_map_iff in Hh as [sd [<- Hsd]]. cbn [Es.make_hit hit_score].
  rewrite Forall_forall in Hscored. apply Hscored.
  apply (Permutation_in _ (sort_desc_perm scored)).
  rewrite <- (firstn_skipn (Z.to_nat n) (Es.sort_desc scored)).
  apply in_or_app. now left.
Qed.

(** C4.  Whatever the limit and the state, once the embedding [qv] of the
    query is obtained, [search_similar_chats] makes exactly two calls, the
    embedding request and one search request.  The score which that search
    request makes the store compute for a record whose vector has the length
    of [qv] and non-zero magnitude is the cosine similarity of [qv] and the
    record's vector plus 1; it lies between 0 and 2, so it is not negative.
    And every hit with which the store answers that request carries a score
    between 0 and 2. *)
Theorem search_similar_chats_scores_by_cosine_plus_one env q size st qv d :
  embeddings_create env q = Ok qv ->
  scorable qv d ->
  exists body,
    calls (fst (search_similar_chats env q size st))
      = (calls st ++ [ EmbeddingsCreate q; EsSearch body ])%list /\
    Es.script_score body d = Some (cosine_similarity qv (embedding d) + 1)%R /\
    (0 <= cosine_similarity qv (embedding d) + 1 <= 2)%R /\
    (forall st' hits,
        Es.search env body (logged (EmbeddingsCreate q) st) = (st', Ok hits) ->
        Forall (fun h => (0 <= hit_score h <= 2)%R) hits).
Proof.
  intros Hemb Hs. exists (search_request qv size). split; [|split; [|split]].
  - exact (@search_similar_chats_calls env q size st qv Hemb).
  - exact (@script_score_search_request qv size d Hs).
  - exact (@score_of_range qv d Hs).
  - intros st' hits Hrun. exact (es_search_hits_range _ _ _ _ Hrun).
Qed.

Lemma search_similar_chats_scores_by_cosine_plus_one_witness :
  exists body,
    calls (fst (search_similar_chats env_up (PStr "ingest pipeline") (PInt 5)
                  sample_state))
      = (calls sample_state
           ++ [ EmbeddingsCreate (PStr "ingest pipeline"); EsSearch body ])%list /\
    Es.script_score body long_record
      = Some (cosine_similarity [1%R; 0%R] (embedding long_record) + 1)%R /\
    (0 <= cosine_similarity [1%R; 0%R] (embedding long_record) + 1 <= 2)%R /\
    (forall st' hits,
        Es.search env_up body
          (logged (EmbeddingsCreate (PStr "ingest pipeline")) sample_state)
          = (st', Ok hits) ->
        Forall (fun h => (0 <= hit_score h <= 2)%R) hits).
Proof.
  apply (@search_similar_chats_scores_by_cosine_plus_one env_up
           (PStr "ingest pipeline") (PInt 5) sample_state [1%R; 0%R] long_record).
  - reflexivity.
  - exact scorable_long_record.
Defined.

(* ================================================================== *)
(** ** Long responses in the listing of [search_chat_history] *)

Lemma listing_shown i ds :
  listing i ds = listing_showing shown_response i ds.
Proof.
  revert i. induction ds as [|d ds IH]; intros i; cbn [listing listing_showing];
    [reflexivity|].
  rewrite IH. unfold listing_entry, entry_showing, shown_response.
  now rewrite !string_app_assoc.
Qed.

Lemma shown_response_long r :
  (200 < String.length r)%nat ->
  exists head tail,
    r = head ++ tail /\ String.length head = 200%nat
    /\ shown_response r = head ++ "...".
Proof.
  intros Hlong. destruct (@slice_to_long 200 r) as [tail [Hs Hn]]; [lia|].
  exists (slice_to 200 r), tail. split; [exact Hs|]. split; [exact Hn|].
  unfold shown_response.
  destruct (Nat.ltb_spec 200 (String.length r)); [reflexivity | lia].
Qed.

Lemma shown_response_short r :
  (String.length r <= 200)%nat -> shown_response r = r.
Proof.
  intros Hshort. unfold shown_response.
  rewrite (@slice_to_short 200 r Hshort).
  destruct (Nat.ltb_spec 200 (String.length r)); [lia|].
  apply string_app_empty_r.
Qed.

(** C5.  When the search succeeds, the text that [search_chat_history]
    returns lists every selected record, in rank order and numbered from 1,
    with three lines each; on the third line the response is shown by one
    and the same function [shown], which gives, for a response of more than
    200 characters, exactly its first 200 characters followed by the marker
    [...], and for a response of 200 characters or fewer the response itself
    with no marker. *)
Theorem search_chat_history_truncates_long_responses env arguments st n qv :
  dict_get (or_empty arguments) "limit" (PInt 5) = PInt n ->
  (0 <= n)%Z ->
  embeddings_create env (dict_get (or_empty arguments) "query" (PStr EmptyString))
    = Ok qv ->
  es_search_error env = None ->
  Forall (scorable qv) (collection st) ->
  exists shown : string -> string,
    snd (handle_call_tool env "search_chat_history" arguments st) =
    Ok (text_content
          match top_records qv n (collection st) with
          | [] => "No similar conversations found."
          | _ :: _ =>
              "Found "
                ++ str_of_nat (List.length (top_records qv n (collection st)))
                ++ " similar conversations:" ++ nl ++ nl
                ++ listing_showing shown 1 (top_records qv n (collection st))
          end) /\
    (forall r,
        (200 < String.length r)%nat ->
        exists head tail,
          r = head ++ tail /\ String.length head = 200%nat
          /\ shown r = head ++ "...") /\
    (forall r, (String.length r <= 200)%nat -> shown r = r).
Proof.
  intros Hlimit Hn Hemb Hup Hsc. exists shown_response. split; [|split].
  - rewrite (@search_chat_history_run env arguments st n qv Hlimit Hn Hemb Hup Hsc).
    cbn [snd]. now rewrite listing_shown.
  - exact shown_response_long.
  - exact shown_response_short.
Qed.

Lemma search_chat_history_truncates_long_responses_witness :
  exists shown : string -> string,
    snd (handle_call_tool env_up "search_chat_history"
           (Some [ ("query", PStr "more"); ("limit", PInt 3) ]) long_state) =
    Ok (text_content
          match top_records [1%R; 0%R] 3 (collection long_state) with
          | [] => "No similar conversations found."
          | _ :: _ =>
              "Found "
                ++ str_of_nat
                     (List.length (top_records [1%R; 0%R] 3 (collection long_state)))
                ++ " similar conversations:" ++ nl ++ nl
                ++ listing_showing shown 1
                     (top_records [1%R; 0%R] 3 (collection long_state))
          end) /\
    (forall r,
        (200 < String.length r)%nat ->
        exists head tail,
          r = head ++ tail /\ String.length head = 200%nat
          /\ shown r = head ++ "...") /\
    (forall r, (String.length r <= 200)%nat -> shown r = r).
Proof.
  apply (@search_chat_history_truncates_long_responses env_up
           (Some [ ("query", PStr "more"); ("limit", PInt 3) ]) long_state 3%Z
           [1%R; 0%R]).
  - reflexivity.
  - lia.
  - reflexivity.
  - reflexivity.
  - constructor; [exact scorable_long_record | constructor].
Defined.
